(** * systemd_timings: a shallow embedding of the telegraf input plugin

    The plugin (plugins/inputs/systemd_timings/systemd_timings.go) reads boot
    milestone timestamps and per-unit activation timestamps from systemd over
    dbus and hands them to a telegraf accumulator.

    Modelling choices:
    - Go [string] is a byte string: Rocq [string].
    - Go [uint64] is a [Z] in [0, 2^64) with the wrap-around written out.
    - Go [(T, error)] returns are the sum [result T].
    - A Go run-time panic (the unchecked index in [stripType]) is the
      [Panic] outcome; it is distinct from a returned [error].
    - The package-level variables [managerProps] and [collectionDone] and the
      accumulator handed in by the host are threaded through a state monad in
      which the state survives a panic.
    - The dbus connection is an external collaborator: a record of functions. *)

From Stdlib Require Import ZArith Ascii String List Lia Bool.
From stdpp Require Import base option list strings gmap fin_maps.

Local Open Scope string_scope.
Local Open Scope Z_scope.

(** ** Errors and outcomes *)

(** [strconv.ErrSyntax] and [strconv.ErrRange]. *)
Inductive numErrKind : Type :=
| ErrSyntax
| ErrRange.

(** The Go [error] values that flow through the plugin. *)
Inductive error : Type :=
| NumError (func num : string) (kind : numErrKind)  (* strconv.NumError *)
| BusError (msg : string)                           (* any error of the dbus library *)
| ErrorfError (msg : string).                       (* fmt.Errorf *)

Inductive result (A : Type) : Type :=
| Ok (a : A)
| Err (e : error).
Arguments Ok {A} a.
Arguments Err {A} e.

(** A run-time panic: index [index] out of range for a slice of length [len]. *)
Inductive panic : Type :=
| IndexOutOfRange (index len : nat).

Inductive outcome (A : Type) : Type :=
| Val (a : A)
| Panic (p : panic).
Arguments Val {A} a.
Arguments Panic {A} p.

Definition bindO {A B : Type} (o : outcome A) (k : A -> outcome B) : outcome B :=
  match o with
  | Val a => k a
  | Panic p => Panic p
  end.

(** ** uint64 arithmetic *)

Definition maxUint64 : Z := 2 ^ 64 - 1.

(** [a - b] on uint64. *)
Definition sub64 (a b : Z) : Z := (a - b) mod 2 ^ 64.
(** [a * b] and [a + b] on uint64. *)
Definition mul64 (a b : Z) : Z := (a * b) mod 2 ^ 64.
Definition add64 (a b : Z) : Z := (a + b) mod 2 ^ 64.

Definition is_uint64 (n : Z) : Prop := 0 <= n <= maxUint64.

(** ** The Go standard library functions the plugin calls *)

(** [strings.Split(s, sep)] for a one-byte separator: the substrings between
    the occurrences of [sep]; always at least one element. *)
Fixpoint Split (s : string) (sep : ascii) : list string :=
  match s with
  | EmptyString => [EmptyString]
  | String c s' =>
      if Ascii.eqb c sep then EmptyString :: Split s' sep
      else match Split s' sep with
           | [] => [String c EmptyString]
           | t :: ts => String c t :: ts
           end
  end.

(** [strings.HasSuffix(s, suffix)]:
    [len(s) >= len(suffix) && s[len(s)-len(suffix):] == suffix]. *)
Definition HasSuffix (s suffix : string) : bool :=
  (String.length suffix <=? String.length s)%nat &&
  String.eqb
    (substring (String.length s - String.length suffix) (String.length suffix) s)
    suffix.

(** The loop of [strconv.ParseUint] for base 10: [cutoff] is
    [maxUint64/10 + 1]; every byte that is not a decimal digit is a syntax
    error; the returned pair is Go's [(uint64, error)]. *)
Definition cutoff10 : Z := maxUint64 / 10 + 1.

Fixpoint parseUintLoop (maxVal : Z) (s : string) (n : Z) : Z * option numErrKind :=
  match s with
  | EmptyString => (n, None)
  | String c s' =>
      let b := Z.of_N (N_of_ascii c) in
      if (48 <=? b) && (b <=? 57) then
        let d := b - 48 in
        if cutoff10 <=? n then (maxVal, Some ErrRange)
        else
          let n10 := mul64 n 10 in
          let n1 := add64 n10 d in
          if (n1 <? n10) || (maxVal <? n1) then (maxVal, Some ErrRange)
          else parseUintLoop maxVal s' n1
      else (0, Some ErrSyntax)
  end.

Definition parseUint (s : string) (bitSize : Z) : Z * option numErrKind :=
  if String.eqb s "" then (0, Some ErrSyntax)
  else parseUintLoop (2 ^ bitSize - 1) s 0.

(** [strconv.ParseUint(s, 10, bitSize)]. *)
Definition ParseUint (s : string) (bitSize : Z) : result Z :=
  match parseUint s bitSize with
  | (n, None) => Ok n
  | (_, Some k) => Err (NumError "ParseUint" s k)
  end.

(** [strconv.ParseInt(s, 10, bitSize)]: an optional sign, then [ParseUint] on
    the rest, then the signed range check. *)
Definition ParseInt (s : string) (bitSize : Z) : result Z :=
  match s with
  | EmptyString => Err (NumError "ParseInt" s ErrSyntax)
  | String c rest =>
      let neg := Ascii.eqb c "-" in
      let s1 := if Ascii.eqb c "+" || Ascii.eqb c "-" then rest else s in
      match parseUint s1 bitSize with
      | (_, Some ErrSyntax) => Err (NumError "ParseInt" s ErrSyntax)
      | (un, _) =>
          let cutoff := 2 ^ (bitSize - 1) in
          if negb neg && (cutoff <=? un) then Err (NumError "ParseInt" s ErrRange)
          else if neg && (cutoff <? un) then Err (NumError "ParseInt" s ErrRange)
          else Ok (if neg then - un else un)
      end
  end.

(** The value of a decimal digit byte. *)
Definition digitVal (c : ascii) : Z := Z.of_N (N_of_ascii c) - 48.

(** A decimal string is canonical when it has no leading zero, the way
    [strconv.FormatUint] prints. *)
Definition no_leading_zero (s : string) : Prop :=
  s = "0" \/ exists c s', s = String c s' /\ c <> "0"%char.

(** [strconv.FormatUint(n, 10)]: the decimal digits of [n], most
    significant first, no leading zero; twenty digits are enough for a
    uint64. *)
Definition digitChar (d : Z) : ascii := ascii_of_N (Z.to_N (48 + d)).

Fixpoint formatUintFuel (fuel : nat) (n : Z) (tail : string) : string :=
  match fuel with
  | O => tail
  | S fuel' =>
      let tail' := String (digitChar (n mod 10)) tail in
      if n <? 10 then tail' else formatUintFuel fuel' (n / 10) tail'
  end.

Definition FormatUint (n : Z) : string := formatUintFuel 20 n "".

(** How the dbus library prints a property of type uint64: the signature
    [@t], a space, and the value in decimal. *)
Definition renderUint64 (v : Z) : string := "@t " ++ FormatUint v.

(** ** The plugin: constants *)

(** Measurement name. *)
Definition measurement : string := "systemd_timings".

(** The keys of the package-level map [managerProps]. *)
Definition managerPropNames : list string :=
  [ "FirmwareTimestampMonotonic";
    "LoaderTimestampMonotonic";
    "InitRDTimestampMonotonic";
    "UserspaceTimestampMonotonic";
    "FinishTimestampMonotonic";
    "SecurityStartTimestampMonotonic";
    "SecurityFinishTimestampMonotonic";
    "GeneratorsStartTimestampMonotonic";
    "GeneratorsFinishTimestampMonotonic";
    "UnitsLoadStartTimestampMonotonic";
    "UnitsLoadFinishTimestampMonotonic";
    "InitRDSecurityStartTimestampMonotonic";
    "InitRDSecurityFinishTimestampMonotonic";
    "InitRDGeneratorsStartTimestampMonotonic";
    "InitRDGeneratorsFinishTimestampMonotonic";
    "InitRDUnitsLoadStartTimestampMonotonic";
    "InitRDUnitsLoadFinishTimestampMonotonic" ].

(** The initial value of [managerProps]: every key maps to the empty string. *)
Definition managerProps0 : gmap string string :=
  list_to_map (map (fun name => (name, "")) managerPropNames).

(** ** stripType *)

(** [strings.Split(str, " ")[1]]: the index is not checked, so a slice of
    length one panics. *)
Definition stripType (str : string) : outcome string :=
  let parts := Split str " "%char in
  match nth_error parts 1 with
  | Some v => Val v
  | None => Panic (IndexOutOfRange 1 (List.length parts))
  end.

(** ** The dbus connection (external) *)

(** [*dbus.Conn] as far as the plugin uses it.  [GetManagerProperty] returns
    the rendered variant; [GetUnitProperty unit prop] stands for the call
    followed by [.Value.String()], the only use the plugin makes of the
    property; [ListUnitsByPatterns states patterns] returns the [Name] of each
    unit status. *)
Record Conn : Type := {
  GetManagerProperty : string -> result string;
  GetUnitProperty : string -> string -> result string;
  ListUnitsByPatterns : list string -> list string -> result (list string);
}.

(** What the outside world answers during one call of [Gather]:
    [dbus.NewSystemConnection] is called once by [bootIsFinished] and once by
    [Gather] itself, and [range managerProps] visits the keys in an order
    chosen by the Go run time. *)
Record Tick : Type := {
  readinessConn : result Conn;
  passConn : result Conn;
  rangeOrder : list string;
}.

(** ** The accumulator and the process-wide state *)

(** One call of [acc.AddFields(measurement, fields, tags)]; the two Go map
    literals are kept as association lists in the order they are written. *)
Record Metric : Type := {
  m_measurement : string;
  m_fields : list (string * Z);
  m_tags : list (string * string);
}.

Record Accumulator : Type := {
  metrics : list Metric;
  errors : list error;
}.

(** Plugin configuration. *)
Record SystemdTimings : Type := {
  UnitPattern : string;
  Periodic : bool;
}.

Definition defaultUnitPattern : string := "*.service".
Definition defaultPeriodic : bool := false.

(** The package-level variables together with the accumulator of the host. *)
Record World : Type := {
  managerProps : gmap string string;
  collectionDone : bool;
  acc : Accumulator;
}.

(** The state at process start, with an empty accumulator. *)
Definition World0 : World :=
  {| managerProps := managerProps0;
     collectionDone := false;
     acc := {| metrics := []; errors := [] |} |}.

(** ** A state monad whose state survives a panic *)

Definition M (A : Type) : Type := World -> outcome A * World.

Definition ret {A : Type} (a : A) : M A := fun w => (Val a, w).

Definition bind {A B : Type} (m : M A) (k : A -> M B) : M B :=
  fun w =>
    match m w with
    | (Val a, w') => k a w'
    | (Panic p, w') => (Panic p, w')
    end.

Definition liftO {A : Type} (o : outcome A) : M A := fun w => (o, w).

Notation "'let*' x ':=' c 'in' k" := (bind c (fun x => k))
  (at level 10, x name, c at level 100, k at level 200).
Notation "c '>>' k" := (bind c (fun _ => k))
  (at level 100, k at level 200, right associativity).

(** [try x := r in k]: Go's [x, err := r; if err != nil { return ..., err }]
    inside a function that can also panic. *)
Notation "'try' x ':=' r 'in' k" :=
  (match r with
   | Ok x => k
   | Err e => Val (Err e)
   end)
  (at level 10, x name, r at level 100, k at level 200).

(** The three ways the plugin changes the state. *)
Definition storeProp (name v : string) (w : World) : World :=
  {| managerProps := <[name := v]> (managerProps w);
     collectionDone := collectionDone w;
     acc := acc w |}.

Definition pushError (e : error) (w : World) : World :=
  {| managerProps := managerProps w;
     collectionDone := collectionDone w;
     acc := {| metrics := metrics (acc w);
               errors := errors (acc w) ++ [e] |} |}.

Definition pushMetric (m : Metric) (w : World) : World :=
  {| managerProps := managerProps w;
     collectionDone := collectionDone w;
     acc := {| metrics := metrics (acc w) ++ [m];
               errors := errors (acc w) |} |}.

Definition getManagerProps : M (gmap string string) :=
  fun w => (Val (managerProps w), w).

(** [managerProps[name] = v]. *)
Definition setManagerProp (name v : string) : M unit :=
  fun w => (Val tt, storeProp name v w).

Definition getCollectionDone : M bool :=
  fun w => (Val (collectionDone w), w).

Definition setCollectionDone (b : bool) : M unit :=
  fun w => (Val tt,
            {| managerProps := managerProps w;
               collectionDone := b;
               acc := acc w |}).

(** [acc.AddError(err)]. *)
Definition AddError (e : error) : M unit :=
  fun w => (Val tt, pushError e w).

(** [acc.AddFields(measurement, fields, tags)]. *)
Definition AddFields (meas : string) (fields : list (string * Z))
    (tags : list (string * string)) : M unit :=
  fun w => (Val tt,
            pushMetric {| m_measurement := meas;
                          m_fields := fields;
                          m_tags := tags |} w).

(** A [for ... range] loop over [l] whose body may panic. *)
Fixpoint forEach {A : Type} (body : A -> M unit) (l : list A) : M unit :=
  match l with
  | [] => ret tt
  | x :: l' => body x >> forEach body l'
  end.

(** ** getManagerProp *)

Definition getManagerProp (dbusConn : Conn) (propName : string) : outcome (result string) :=
  try prop := GetManagerProperty dbusConn propName in
  bindO (stripType prop) (fun v => Val (Ok v)).

(** ** bootIsFinished *)

Definition bootIsFinished (dial : result Conn) : outcome bool :=
  match dial with
  | Err _ => Val false
  | Ok dbusConn =>
      bindO (getManagerProp dbusConn "FinishTimestampMonotonic") (fun r =>
      match r with
      | Err _ => Val false
      | Ok progressStr =>
          match ParseInt progressStr 32 with
          | Err _ => Val false
          | Ok progressVal => Val (negb (progressVal =? 0))
          end
      end)
  end.

(** ** postAllManagerProps *)

Definition managerMetric (name : string) (value : Z) : Metric :=
  {| m_measurement := measurement;
     m_fields := [("SystemTimestampValue", value)];
     m_tags := [("SystemTimestamp", name)] |}.

(** The body of the loop over [managerProps]. *)
Definition managerPropBody (dbusConn : Conn) (name : string) : M unit :=
  let* r := liftO (getManagerProp dbusConn name) in
  match r with
  | Err _ => ret tt
  | Ok propVal =>
      setManagerProp name propVal >>
      if String.eqb propVal "" || String.eqb propVal "0" then ret tt
      else
        match ParseUint propVal 64 with
        | Err e => AddError e
        | Ok value =>
            AddFields measurement
              [("SystemTimestampValue", value)] [("SystemTimestamp", name)]
        end
  end.

Definition postAllManagerProps (dbusConn : Conn) (order : list string) : M (option error) :=
  forEach (managerPropBody dbusConn) order >> ret None.

(** ** getUnitTimingData *)

Record UnitTiming : Type := {
  activating : Z;
  activated : Z;
  deactivating : Z;
  deactivated : Z;
  runtime : Z;
}.

(** [if t > 0 { t -= userSpaceStart }]. *)
Definition normalize (t userSpaceStart : Z) : Z :=
  if t >? 0 then sub64 t userSpaceStart else t.

Definition runDuration (activating activated deactivated : Z) : Z :=
  if activated >=? activating then sub64 activated activating
  else if deactivated >=? activating then sub64 deactivated activating
  else 0.

Definition getUnitTimingData (dbusConn : Conn) (unitName : string)
    (userSpaceStart : Z) : outcome (result UnitTiming) :=
  try activatingProp := GetUnitProperty dbusConn unitName "InactiveExitTimestampMonotonic" in
  try activatedProp := GetUnitProperty dbusConn unitName "ActiveEnterTimestampMonotonic" in
  try deactivatingProp := GetUnitProperty dbusConn unitName "ActiveExitTimestampMonotonic" in
  try deactivatedProp := GetUnitProperty dbusConn unitName "InactiveEnterTimestampMonotonic" in
  bindO (stripType activatingProp) (fun s1 =>
  try activating := ParseUint s1 64 in
  bindO (stripType activatedProp) (fun s2 =>
  try activated := ParseUint s2 64 in
  bindO (stripType deactivatingProp) (fun s3 =>
  try deactivating := ParseUint s3 64 in
  bindO (stripType deactivatedProp) (fun s4 =>
  try deactivated := ParseUint s4 64 in
  let activating := normalize activating userSpaceStart in
  let activated := normalize activated userSpaceStart in
  let deactivating := normalize deactivating userSpaceStart in
  let deactivated := normalize deactivated userSpaceStart in
  let runtime := runDuration activating activated deactivated in
  Val (Ok {| activating := activating;
             activated := activated;
             deactivating := deactivating;
             deactivated := deactivated;
             runtime := runtime |}))))).

(** ** postAllUnitTimingData *)

Definition tab6 : string :=
  String "009" (String "009" (String "009" (String "009" (String "009" (String "009" ""))))).

(** The error returned when the key is missing from [managerProps]. *)
Definition errUserspaceNotFound : error :=
  ErrorfError ("UserspaceTimestampMonotonic not found, cannot" ++
               String "010" (tab6 ++ "  compute unit timestamps")).

Definition unitMetric (name : string) (t : UnitTiming) : Metric :=
  {| m_measurement := measurement;
     m_fields := [("ActivatingTimestamp", activating t);
                  ("ActivatedTimestamp", activated t);
                  ("DeactivatingTimestamp", deactivating t);
                  ("DeactivatedTimestamp", deactivated t);
                  ("RunDuration", runtime t)];
     m_tags := [("UnitName", name)] |}.

(** The body of the loop over the unit status list. *)
Definition unitBody (dbusConn : Conn) (userStartTs : Z) (name : string) : M unit :=
  let* r := liftO (getUnitTimingData dbusConn name userStartTs) in
  match r with
  | Err e => AddError e
  | Ok t =>
      if (runtime t =? 0) && negb (HasSuffix name ".target") then ret tt
      else
        AddFields measurement
          [("ActivatingTimestamp", activating t);
           ("ActivatedTimestamp", activated t);
           ("DeactivatingTimestamp", deactivating t);
           ("DeactivatedTimestamp", deactivated t);
           ("RunDuration", runtime t)]
          [("UnitName", name)]
  end.

Definition postAllUnitTimingData (dbusConn : Conn) (s : SystemdTimings) : M (option error) :=
  match ListUnitsByPatterns dbusConn [] (Split (UnitPattern s) ","%char) with
  | Err e => AddError e >> ret (Some e)
  | Ok statusList =>
      let* props := getManagerProps in
      match props !! "UserspaceTimestampMonotonic" with
      | None => ret (Some errUserspaceNotFound)
      | Some userTs =>
          match ParseUint userTs 64 with
          | Err e => AddError e >> ret (Some e)
          | Ok userStartTs =>
              forEach (unitBody dbusConn userStartTs) statusList >> ret None
          end
      end
  end.

(** ** Gather *)

(** The collection pass: [Gather] from [dbus.NewSystemConnection] on.
    [defer dbusConn.Close()] has no effect the plugin can observe. *)
Definition collect (s : SystemdTimings) (t : Tick) : M (option error) :=
  match passConn t with
  | Err e => ret (Some e)
  | Ok dbusConn =>
      let* err := postAllManagerProps dbusConn (rangeOrder t) in
      match err with
      | Some e => AddError e >> ret (Some e)
      | None =>
          let* err := postAllUnitTimingData dbusConn s in
          match err with
          | Some e => AddError e >> ret (Some e)
          | None => setCollectionDone true >> ret None
          end
      end
  end.

Definition Gather (s : SystemdTimings) (t : Tick) : M (option error) :=
  let* ready := liftO (bootIsFinished (readinessConn t)) in
  if negb ready then ret None
  else if Bool.eqb (Periodic s) false then
    let* done := getCollectionDone in
    if Bool.eqb done true then ret None
    else collect s t
  else collect s t.

(** [range managerProps] visits every key of the map exactly once. *)
Definition range_of (m : gmap string string) (order : list string) : Prop :=
  order ≡ₚ elements (dom m).

(** One call of [Gather] by the host, with any configuration and any answers
    of the outside world. *)
Inductive tick_step : World -> World -> Prop :=
| tick_step_intro (s : SystemdTimings) (t : Tick) (w : World) :
    range_of (managerProps w) (rangeOrder t) ->
    tick_step w (snd (Gather s t w)).

(** The states the process can be in after any number of calls. *)
Inductive reachable : World -> Prop :=
| reachable_start (a : Accumulator) :
    reachable {| managerProps := managerProps0; collectionDone := false; acc := a |}
| reachable_tick (w w' : World) :
    reachable w -> tick_step w w' -> reachable w'.

(** The host calls [Gather] once per tick; the state after a series of
    calls. *)
Fixpoint runTicks (s : SystemdTimings) (ts : list Tick) (w : World) : World :=
  match ts with
  | [] => w
  | t :: ts' => runTicks s ts' (snd (Gather s t w))
  end.

(** A tick on which the pass, if it gets a connection, cannot read the
    userspace timestamp. *)
Definition userspace_unread (t : Tick) : Prop :=
  forall dbusConn, passConn t = Ok dbusConn ->
    exists e, GetManagerProperty dbusConn "UserspaceTimestampMonotonic" = Err e.

(** The states reached without ever reading the userspace timestamp. *)
Inductive reachable_unread : World -> Prop :=
| reachable_unread_start (a : Accumulator) :
    reachable_unread
      {| managerProps := managerProps0; collectionDone := false; acc := a |}
| reachable_unread_tick (s : SystemdTimings) (t : Tick) (w : World) :
    reachable_unread w ->
    range_of (managerProps w) (rangeOrder t) ->
    userspace_unread t ->
    reachable_unread (snd (Gather s t w)).

(** The parse error of the empty string. *)
Definition errParseEmpty : error := NumError "ParseUint" "" ErrSyntax.

(** [strings.IndexByte(s, sep) >= 0]: the byte [sep] occurs in [s]. *)
Fixpoint contains (sep : ascii) (s : string) : bool :=
  match s with
  | EmptyString => false
  | String c s' => Ascii.eqb c sep || contains sep s'
  end.

(** [strings.Join(l, sep)] for a one-byte separator. *)
Fixpoint Join (l : list string) (sep : ascii) : string :=
  match l with
  | [] => EmptyString
  | [p] => p
  | p :: rest => p ++ String sep (Join rest sep)
  end.

(** ** What a pass hands to the accumulator *)

Definition appendAcc (a : Accumulator) (ms : list Metric) (es : list error) : Accumulator :=
  {| metrics := metrics a ++ ms; errors := errors a ++ es |}.

(** The records and the errors that the round of the manager loop for
    [name] adds, as functions of the answers of the bus. *)
Definition managerRecords (dbusConn : Conn) (name : string) : list Metric :=
  match getManagerProp dbusConn name with
  | Val (Ok propVal) =>
      if String.eqb propVal "" || String.eqb propVal "0" then []
      else match ParseUint propVal 64 with
           | Ok value => [managerMetric name value]
           | Err _ => []
           end
  | _ => []
  end.

Definition managerErrors (dbusConn : Conn) (name : string) : list error :=
  match getManagerProp dbusConn name with
  | Val (Ok propVal) =>
      if String.eqb propVal "" || String.eqb propVal "0" then []
      else match ParseUint propVal 64 with
           | Ok _ => []
           | Err e => [e]
           end
  | _ => []
  end.

(** The same for the round of the unit loop for [name]. *)
Definition unitRecords (dbusConn : Conn) (userStartTs : Z) (name : string) : list Metric :=
  match getUnitTimingData dbusConn name userStartTs with
  | Val (Ok t) =>
      if (runtime t =? 0) && negb (HasSuffix name ".target") then []
      else [unitMetric name t]
  | _ => []
  end.

Definition unitErrors (dbusConn : Conn) (userStartTs : Z) (name : string) : list error :=
  match getUnitTimingData dbusConn name userStartTs with
  | Val (Err e) => [e]
  | _ => []
  end.

(** ** Concrete buses and states used in the examples below *)

Definition cfgDefault : SystemdTimings :=
  {| UnitPattern := defaultUnitPattern; Periodic := defaultPeriodic |}.

(** A unit that left the inactive state at 1000 and became active at 5000. *)
Definition unitProps_1000_5000 (unit prop : string) : result string :=
  if String.eqb prop "InactiveExitTimestampMonotonic" then Ok "@t 1000"
  else if String.eqb prop "ActiveEnterTimestampMonotonic" then Ok "@t 5000"
  else Ok "@t 0".

(** A unit started before the userspace-start reference (for example in the
    initrd): it left the inactive state at 100 and became active at 5000. *)
Definition unitProps_100_5000 (unit prop : string) : result string :=
  if String.eqb prop "InactiveExitTimestampMonotonic" then Ok "@t 100"
  else if String.eqb prop "ActiveEnterTimestampMonotonic" then Ok "@t 5000"
  else Ok "@t 0".

(** A booted system: userspace started at 500, boot finished at 900. *)
Definition managerProps_booted (name : string) : result string :=
  if String.eqb name "UserspaceTimestampMonotonic" then Ok "@t 500"
  else if String.eqb name "FinishTimestampMonotonic" then Ok "@t 900"
  else Ok "@t 0".

Definition connBooted : Conn :=
  {| GetManagerProperty := managerProps_booted;
     GetUnitProperty := unitProps_1000_5000;
     ListUnitsByPatterns := fun _ _ => Ok ["a.service"; "b.target"] |}.

Definition connEarlyUnit : Conn :=
  {| GetManagerProperty := managerProps_booted;
     GetUnitProperty := unitProps_100_5000;
     ListUnitsByPatterns := fun _ _ => Ok ["initrd-udevadm-cleanup-db.service"] |}.

(** A system whose boot finished 2^31 microseconds (about 36 minutes) after
    the monotonic clock started. *)
Definition connLateBoot : Conn :=
  {| GetManagerProperty := fun name =>
       if String.eqb name "FinishTimestampMonotonic" then Ok "@t 2147483648"
       else Ok "@t 500";
     GetUnitProperty := unitProps_1000_5000;
     ListUnitsByPatterns := fun _ _ => Ok ["a.service"] |}.

Definition tickBooted : Tick :=
  {| readinessConn := Ok connBooted;
     passConn := Ok connBooted;
     rangeOrder := managerPropNames |}.

Definition tickLateBoot : Tick :=
  {| readinessConn := Ok connLateBoot;
     passConn := Ok connLateBoot;
     rangeOrder := managerPropNames |}.

(** A bus whose userspace timestamp does not decode. *)
Definition connGarbled : Conn :=
  {| GetManagerProperty := fun name =>
       if String.eqb name "UserspaceTimestampMonotonic" then Ok "@t abc"
       else Err (BusError "no such property");
     GetUnitProperty := unitProps_1000_5000;
     ListUnitsByPatterns := fun _ _ => Ok [] |}.

(** A bus on which only the finish timestamp can still be read. *)
Definition connUserspaceGone : Conn :=
  {| GetManagerProperty := fun name =>
       if String.eqb name "FinishTimestampMonotonic" then Ok "@t 900"
       else Err (BusError "no such property");
     GetUnitProperty := unitProps_1000_5000;
     ListUnitsByPatterns := fun _ _ => Ok ["a.service"] |}.

Definition tickUserspaceGone : Tick :=
  {| readinessConn := Ok connUserspaceGone;
     passConn := Ok connUserspaceGone;
     rangeOrder := managerPropNames |}.

Definition cfgPeriodic : SystemdTimings :=
  {| UnitPattern := defaultUnitPattern; Periodic := true |}.

(** A bus that renders the finish timestamp without a type token. *)
Definition connUntyped : Conn :=
  {| GetManagerProperty := fun _ => Ok "900";
     GetUnitProperty := unitProps_1000_5000;
     ListUnitsByPatterns := fun _ _ => Ok [] |}.

Definition tickUntyped : Tick :=
  {| readinessConn := Ok connUntyped;
     passConn := Ok connUntyped;
     rangeOrder := managerPropNames |}.

(** A bus on which the manager still answers but every unit read fails. *)
Definition connUserspaceDown : Conn :=
  {| GetManagerProperty := managerProps_booted;
     GetUnitProperty := fun _ _ => Err (BusError "connection closed");
     ListUnitsByPatterns := fun _ _ => Ok ["a.service"] |}.

(** A system that has not finished booting. *)
Definition connNotReady : Conn :=
  {| GetManagerProperty := fun _ => Ok "@t 0";
     GetUnitProperty := unitProps_1000_5000;
     ListUnitsByPatterns := fun _ _ => Ok ["a.service"] |}.

Definition tickNotReady : Tick :=
  {| readinessConn := Ok connNotReady;
     passConn := Ok connNotReady;
     rangeOrder := managerPropNames |}.

(** A booted system on which the enumeration of the units fails. *)
Definition connNoUnits : Conn :=
  {| GetManagerProperty := managerProps_booted;
     GetUnitProperty := unitProps_1000_5000;
     ListUnitsByPatterns := fun _ _ => Err (BusError "enumeration failed") |}.

Definition tickNoUnits : Tick :=
  {| readinessConn := Ok connNoUnits;
     passConn := Ok connNoUnits;
     rangeOrder := managerPropNames |}.

Definition tickUnitsDown : Tick :=
  {| readinessConn := Ok connUserspaceDown;
     passConn := Ok connUserspaceDown;
     rangeOrder := managerPropNames |}.

(** A booted system whose units were never started. *)
Definition connIdleUnits : Conn :=
  {| GetManagerProperty := managerProps_booted;
     GetUnitProperty := fun _ _ => Ok "@t 0";
     ListUnitsByPatterns := fun _ _ => Ok ["multi-user.target"; "idle.service"] |}.

(** A bus that fails the enumeration for the patterns of the README
    example and for no other request. *)
Definition connMounts : Conn :=
  {| GetManagerProperty := managerProps_booted;
     GetUnitProperty := unitProps_1000_5000;
     ListUnitsByPatterns := fun states patterns =>
       match states, patterns with
       | [], [p1; p2] =>
           if String.eqb p1 "*.mount" && String.eqb p2 "*.service"
           then Err (BusError "no mounts") else Ok []
       | _, _ => Ok []
       end |}.

Definition cfgMounts : SystemdTimings :=
  {| UnitPattern := "*.mount,*.service"; Periodic := false |}.

(** The booted system again, with the keys visited in the opposite order. *)
Definition tickBootedReversed : Tick :=
  {| readinessConn := Ok connBooted;
     passConn := Ok connBooted;
     rangeOrder := reverse managerPropNames |}.

(** Case analysis on the scrutinee of a match in hypothesis [H]. *)
Ltac destruct_match_in H :=
  match type of H with
  | context [match ?x with _ => _ end] => destruct x eqn:?; try discriminate H
  end.

(** ** Facts about the library models *)

Example stripType_uint64 : stripType "@t 1234" = Val "1234".
Proof. reflexivity. Qed.
Example ParseUint_max : ParseUint "18446744073709551615" 64 = Ok maxUint64.
Proof. reflexivity. Qed.
Example ParseUint_over :
  ParseUint "18446744073709551616" 64 = Err (NumError "ParseUint" "18446744073709551616" ErrRange).
Proof. reflexivity. Qed.
Example ParseInt_32 : ParseInt "2147483647" 32 = Ok 2147483647.
Proof. reflexivity. Qed.
Example ParseInt_32_over :
  ParseInt "2147483648" 32 = Err (NumError "ParseInt" "2147483648" ErrRange).
Proof. reflexivity. Qed.
Example ParseInt_32_min : ParseInt "-2147483648" 32 = Ok (-2147483648).
Proof. reflexivity. Qed.

Lemma add64_range a b : 0 <= add64 a b <= maxUint64.
Proof.
  unfold add64, maxUint64.
  pose proof (Z.mod_pos_bound (a + b) (2 ^ 64) ltac:(lia)). lia.
Qed.

Lemma sub64_range a b : is_uint64 (sub64 a b).
Proof.
  unfold is_uint64, sub64, maxUint64.
  pose proof (Z.mod_pos_bound (a - b) (2 ^ 64) ltac:(lia)). lia.
Qed.

Lemma sub64_exact a b : b <= a -> a <= maxUint64 -> 0 <= b -> sub64 a b = a - b.
Proof.
  unfold sub64, maxUint64. intros. apply Z.mod_small. lia.
Qed.

(** One round of the digit loop, read off the definition. *)
Lemma parseUintLoop_step maxVal c s n v :
  parseUintLoop maxVal (String c s) n = (v, None) ->
  0 <= digitVal c <= 9 /\ n < cutoff10 /\
  add64 (mul64 n 10) (digitVal c) <= maxVal /\
  mul64 n 10 <= add64 (mul64 n 10) (digitVal c) /\
  parseUintLoop maxVal s (add64 (mul64 n 10) (digitVal c)) = (v, None).
Proof.
  cbn [parseUintLoop]. cbv zeta. fold (digitVal c). intros H.
  destruct ((48 <=? Z.of_N (N_of_ascii c)) && (Z.of_N (N_of_ascii c) <=? 57)) eqn:Hd;
    [|discriminate].
  destruct (cutoff10 <=? n) eqn:Hc; [discriminate|].
  destruct ((add64 (mul64 n 10) (digitVal c) <? mul64 n 10) ||
            (maxVal <? add64 (mul64 n 10) (digitVal c))) eqn:Ho;
    [discriminate|].
  apply andb_true_iff in Hd as [Hd1 Hd2]. apply orb_false_iff in Ho as [Ho1 Ho2].
  apply Z.leb_le in Hd1, Hd2. apply Z.leb_gt in Hc. apply Z.ltb_ge in Ho1, Ho2.
  repeat split; try exact H; try lia; unfold digitVal; lia.
Qed.

Lemma parseUintLoop_range maxVal s : forall n v,
  0 <= n <= maxVal ->
  parseUintLoop maxVal s n = (v, None) ->
  0 <= v <= maxVal.
Proof.
  induction s as [|c s IH]; intros n v Hn H.
  - cbn in H. congruence.
  - apply parseUintLoop_step in H.
    destruct H as (_ & _ & Hmax & _ & H).
    eapply IH; [|exact H].
    pose proof (add64_range (mul64 n 10) (digitVal c)). lia.
Qed.

(** The loop never decreases its accumulator. *)
Lemma parseUintLoop_mono maxVal s : forall n v,
  0 <= n ->
  parseUintLoop maxVal s n = (v, None) ->
  n <= v.
Proof.
  induction s as [|c s IH]; intros n v Hn H.
  - cbn in H. inversion H. lia.
  - apply parseUintLoop_step in H.
    destruct H as (Hd & Hc & _ & Hle & H).
    assert (Hm : mul64 n 10 = n * 10).
    { unfold mul64. apply Z.mod_small. unfold cutoff10, maxUint64 in Hc.
      change (2 ^ 64) with 18446744073709551616.
      change ((2 ^ 64 - 1) / 10 + 1) with 1844674407370955162 in Hc. lia. }
    apply IH in H; lia.
Qed.

Lemma ParseUint_ok_inv s bitSize v :
  ParseUint s bitSize = Ok v ->
  s <> "" /\ parseUintLoop (2 ^ bitSize - 1) s 0 = (v, None).
Proof.
  unfold ParseUint, parseUint. intros H.
  destruct (String.eqb s "") eqn:He; [discriminate|].
  apply String.eqb_neq in He. split; [exact He|].
  destruct (parseUintLoop (2 ^ bitSize - 1) s 0) as [n [k|]]; congruence.
Qed.

Lemma ParseUint_uint64 s v : ParseUint s 64 = Ok v -> is_uint64 v.
Proof.
  intros H. apply ParseUint_ok_inv in H as [_ H].
  apply parseUintLoop_range in H; [exact H|]. vm_compute. split; discriminate.
Qed.

Lemma ParseUint_canonical_zero s v :
  ParseUint s 64 = Ok v -> no_leading_zero s -> (v = 0 <-> s = "0").
Proof.
  intros H Hc. split.
  - intros ->. destruct Hc as [Hc|(c & s' & -> & Hc)]; [exact Hc|].
    apply ParseUint_ok_inv in H as [_ H].
    apply parseUintLoop_step in H.
    destruct H as (Hd & _ & _ & _ & H).
    change (mul64 0 10) with 0 in H.
    assert (Hd' : add64 0 (digitVal c) = digitVal c).
    { unfold add64. apply Z.mod_small. lia. }
    rewrite Hd' in H. apply parseUintLoop_mono in H; [|lia].
    assert (Z.of_N (N_of_ascii c) = 48) as H48 by (unfold digitVal in *; lia).
    exfalso. apply Hc.
    rewrite <- (ascii_N_embedding c).
    replace (N_of_ascii c) with 48%N by lia. reflexivity.
  - intros ->. vm_compute in H. congruence.
Qed.

(** ** Facts about the monad *)

Lemma forEach_app {A : Type} (body : A -> M unit) (l1 l2 : list A) (w : World) :
  forEach body (l1 ++ l2) w =
  match forEach body l1 w with
  | (Val _, w') => forEach body l2 w'
  | (Panic p, w') => (Panic p, w')
  end.
Proof.
  revert w. induction l1 as [|x l1 IH]; intros w; cbn [forEach app].
  - reflexivity.
  - unfold bind.
    destruct (body x w) as [[[]|p] w1]; [apply IH|reflexivity].
Qed.

Lemma forEach_cons {A : Type} (body : A -> M unit) (x : A) (l : list A) (w : World) :
  forEach body (x :: l) w =
  match body x w with
  | (Val _, w') => forEach body l w'
  | (Panic p, w') => (Panic p, w')
  end.
Proof. reflexivity. Qed.

(** A loop keeps whatever every round of its body keeps. *)
Lemma forEach_preserves {A X : Type} (f : World -> X) (body : A -> M unit) (l : list A) :
  (forall x w, f (snd (body x w)) = f w) ->
  forall w, f (snd (forEach body l w)) = f w.
Proof.
  intros Hb. induction l as [|x l IH]; intros w; [reflexivity|].
  rewrite forEach_cons. specialize (Hb x w).
  destruct (body x w) as [[[]|p] w1]; cbn [snd] in *; [|exact Hb].
  rewrite IH. exact Hb.
Qed.

(** ** getUnitTimingData *)

Lemma normalize_uint64 t userSpaceStart :
  is_uint64 t -> is_uint64 (normalize t userSpaceStart).
Proof.
  intros Ht. unfold normalize. destruct (t >? 0); [apply sub64_range|exact Ht].
Qed.

(** A zero timestamp stays zero. *)
Lemma normalize_zero userSpaceStart : normalize 0 userSpaceStart = 0.
Proof. reflexivity. Qed.

(** A non-zero timestamp is reduced by the reference, on uint64. *)
Lemma normalize_nonzero t userSpaceStart :
  is_uint64 t -> t <> 0 -> normalize t userSpaceStart = sub64 t userSpaceStart.
Proof.
  intros [Ht _] Hne. unfold normalize.
  destruct (t >? 0) eqn:Hgt; [reflexivity|].
  rewrite Z.gtb_ltb in Hgt. apply Z.ltb_ge in Hgt. lia.
Qed.

(** When the reference is not later than the timestamp the subtraction does
    not wrap. *)
Lemma normalize_exact t userSpaceStart :
  is_uint64 t -> t <> 0 -> 0 <= userSpaceStart <= t ->
  normalize t userSpaceStart = t - userSpaceStart.
Proof.
  intros Ht Hne Hus. rewrite normalize_nonzero by assumption.
  destruct Ht. apply sub64_exact; lia.
Qed.

Lemma runDuration_spec a b d :
  is_uint64 a -> is_uint64 b -> is_uint64 d ->
  runDuration a b d =
  if b >=? a then b - a else if d >=? a then d - a else 0.
Proof.
  unfold is_uint64, runDuration. intros Ha Hb Hd.
  destruct (b >=? a) eqn:Hba.
  - rewrite Z.geb_leb in Hba. apply Z.leb_le in Hba. apply sub64_exact; lia.
  - destruct (d >=? a) eqn:Hda; [|reflexivity].
    rewrite Z.geb_leb in Hda. apply Z.leb_le in Hda. apply sub64_exact; lia.
Qed.

(** What a successful return of [getUnitTimingData] went through. *)
Lemma getUnitTimingData_ok_inv dbusConn unitName userSpaceStart t :
  getUnitTimingData dbusConn unitName userSpaceStart = Val (Ok t) ->
  exists p1 p2 p3 p4 s1 s2 s3 s4 r1 r2 r3 r4,
    GetUnitProperty dbusConn unitName "InactiveExitTimestampMonotonic" = Ok p1 /\
    GetUnitProperty dbusConn unitName "ActiveEnterTimestampMonotonic" = Ok p2 /\
    GetUnitProperty dbusConn unitName "ActiveExitTimestampMonotonic" = Ok p3 /\
    GetUnitProperty dbusConn unitName "InactiveEnterTimestampMonotonic" = Ok p4 /\
    stripType p1 = Val s1 /\ stripType p2 = Val s2 /\
    stripType p3 = Val s3 /\ stripType p4 = Val s4 /\
    ParseUint s1 64 = Ok r1 /\ ParseUint s2 64 = Ok r2 /\
    ParseUint s3 64 = Ok r3 /\ ParseUint s4 64 = Ok r4 /\
    t = {| activating := normalize r1 userSpaceStart;
           activated := normalize r2 userSpaceStart;
           deactivating := normalize r3 userSpaceStart;
           deactivated := normalize r4 userSpaceStart;
           runtime := runDuration (normalize r1 userSpaceStart)
                        (normalize r2 userSpaceStart)
                        (normalize r4 userSpaceStart) |}.
Proof.
  unfold getUnitTimingData, bindO. intros H.
  repeat destruct_match_in H.
  inversion H; subst. do 12 eexists. repeat split; eassumption.
Qed.

(** C1: whenever [getUnitTimingData] returns timing data, the three
    normalized timestamps A (activating), B (activated) and D (deactivated)
    are unsigned 64-bit values and the returned run duration is [B - A] if
    [B >= A], else [D - A] if [D >= A], else [0] (no wrap-around occurs in
    either difference). *)
Theorem runDuration_invariant dbusConn unitName userSpaceStart t :
  getUnitTimingData dbusConn unitName userSpaceStart = Val (Ok t) ->
  is_uint64 (activating t) /\ is_uint64 (activated t) /\ is_uint64 (deactivated t) /\
  runtime t =
    if activated t >=? activating t then activated t - activating t
    else if deactivated t >=? activating t then deactivated t - activating t
    else 0.
Proof.
  intros H. apply getUnitTimingData_ok_inv in H.
  destruct H as (p1 & p2 & p3 & p4 & s1 & s2 & s3 & s4 & r1 & r2 & r3 & r4 &
                 _ & _ & _ & _ & _ & _ & _ & _ & H1 & H2 & _ & H4 & ->).
  cbn [activating activated deactivated runtime].
  apply ParseUint_uint64 in H1, H2, H4.
  pose proof (normalize_uint64 r1 userSpaceStart H1).
  pose proof (normalize_uint64 r2 userSpaceStart H2).
  pose proof (normalize_uint64 r4 userSpaceStart H4).
  repeat split; try tauto; try apply H; try apply H0; try apply H3.
  apply runDuration_spec; assumption.
Qed.

Lemma runDuration_invariant_witness :
  getUnitTimingData connBooted "a.service" 500 =
    Val (Ok {| activating := 500; activated := 4500; deactivating := 0;
               deactivated := 0; runtime := 4000 |}) /\
  4000 = if 4500 >=? 500 then 4500 - 500 else if 0 >=? 500 then 0 - 500 else 0.
Proof.
  split; [reflexivity|].
  exact (proj2 (proj2 (proj2
    (runDuration_invariant connBooted "a.service" 500
       {| activating := 500; activated := 4500; deactivating := 0;
          deactivated := 0; runtime := 4000 |} eq_refl)))).
Defined.

(** The scenario of the specification: raw activating 1000, activated 5000
    and reference 500 give 500, 4500 and a run duration of 4000. *)
Example getUnitTimingData_scenario :
  getUnitTimingData connBooted "a.service" 500 =
    Val (Ok {| activating := 500; activated := 4500; deactivating := 0;
               deactivated := 0; runtime := 4000 |}).
Proof. reflexivity. Qed.

(** C5: a unit whose raw activating timestamp (100) is non-zero and earlier
    than the userspace-start reference (500) is not normalized to a
    difference "since userspace start": the unsigned subtraction wraps to
    2^64 - 400, the run duration, 4900 on the raw values, comes out 0, and
    the unit collector then emits no record for this service. *)
Theorem normalize_wraps_before_userspace :
  getUnitTimingData connEarlyUnit "initrd-udevadm-cleanup-db.service" 500 =
    Val (Ok {| activating := 18446744073709551216; activated := 4500;
               deactivating := 0; deactivated := 0; runtime := 0 |}) /\
  18446744073709551216 = 2 ^ 64 - 400 /\
  normalize 100 500 <> 100 - 500 /\
  metrics (acc (snd (postAllUnitTimingData connEarlyUnit cfgDefault
                       (storeProp "UserspaceTimestampMonotonic" "500" World0)))) = [].
Proof. repeat split. vm_compute. discriminate. Qed.

(** ** bootIsFinished *)

Lemma getManagerProp_ok_inv dbusConn propName v :
  getManagerProp dbusConn propName = Val (Ok v) ->
  exists prop, GetManagerProperty dbusConn propName = Ok prop /\ stripType prop = Val v.
Proof.
  unfold getManagerProp, bindO. intros H.
  destruct (GetManagerProperty dbusConn propName) as [prop|e]; [|discriminate].
  destruct (stripType prop) as [v'|p] eqn:Hs; [|discriminate].
  injection H as ->. exists prop. split; [reflexivity|exact Hs].
Qed.

Lemma getManagerProp_err_inv dbusConn propName e :
  getManagerProp dbusConn propName = Val (Err e) ->
  GetManagerProperty dbusConn propName = Err e.
Proof.
  unfold getManagerProp, bindO. intros H.
  destruct (GetManagerProperty dbusConn propName) as [prop|e']; [|congruence].
  destruct (stripType prop); discriminate.
Qed.

Lemma bootIsFinished_true_iff dial :
  bootIsFinished dial = Val true <->
  exists dbusConn prop progressStr progressVal,
    dial = Ok dbusConn /\
    GetManagerProperty dbusConn "FinishTimestampMonotonic" = Ok prop /\
    stripType prop = Val progressStr /\
    ParseInt progressStr 32 = Ok progressVal /\
    progressVal <> 0.
Proof.
  unfold bootIsFinished. split.
  - intros H. destruct dial as [dbusConn|e]; [|discriminate].
    destruct (getManagerProp dbusConn "FinishTimestampMonotonic") as [[v|e]|p] eqn:Hg;
      try discriminate.
    cbn [bindO] in H.
    destruct (ParseInt v 32) as [n|e] eqn:Hp; [|discriminate].
    injection H as Hv. apply negb_true_iff, Z.eqb_neq in Hv.
    apply getManagerProp_ok_inv in Hg as (prop & Hr & Hs).
    exists dbusConn, prop, v, n. repeat split; assumption.
  - intros (c & prop & ps & pv & -> & Hr & Hs & Hp & Hne).
    unfold getManagerProp. rewrite Hr, Hs. cbn [bindO]. rewrite Hp.
    f_equal. apply negb_true_iff, Z.eqb_neq. exact Hne.
Qed.

(** C4: with [FinishTimestampMonotonic] read successfully as 2147483648
    (2^31), a non-zero unsigned 64-bit value, [bootIsFinished] answers
    false, because it parses the value as a signed 32-bit integer; [Gather]
    then does nothing. *)
Theorem bootIsFinished_rejects_late_boot :
  GetManagerProperty connLateBoot "FinishTimestampMonotonic" = Ok "@t 2147483648" /\
  stripType "@t 2147483648" = Val "2147483648" /\
  ParseUint "2147483648" 64 = Ok 2147483648 /\
  ParseInt "2147483648" 32 = Err (NumError "ParseInt" "2147483648" ErrRange) /\
  bootIsFinished (Ok connLateBoot) = Val false /\
  Gather cfgDefault tickLateBoot World0 = (Val None, World0).
Proof. repeat split. Qed.

(** ** postAllUnitTimingData *)

(** One round of the unit loop on a unit whose data was read and decoded. *)
Lemma unitBody_ok dbusConn userStartTs name t w :
  getUnitTimingData dbusConn name userStartTs = Val (Ok t) ->
  unitBody dbusConn userStartTs name w =
    (Val tt,
     if (runtime t =? 0) && negb (HasSuffix name ".target") then w
     else pushMetric (unitMetric name t) w).
Proof.
  intros H. unfold unitBody, bind, liftO. rewrite H.
  destruct ((runtime t =? 0) && negb (HasSuffix name ".target")); reflexivity.
Qed.

(** A unit whose read or decode failed is reported and skipped. *)
Lemma unitBody_err dbusConn userStartTs name e w :
  getUnitTimingData dbusConn name userStartTs = Val (Err e) ->
  unitBody dbusConn userStartTs name w = (Val tt, pushError e w).
Proof. intros H. unfold unitBody, bind, liftO. rewrite H. reflexivity. Qed.

(** Past the enumeration and the reference lookup, the collector is its loop. *)
Lemma postAllUnitTimingData_loop dbusConn s w units userTs userStartTs :
  ListUnitsByPatterns dbusConn [] (Split (UnitPattern s) ","%char) = Ok units ->
  managerProps w !! "UserspaceTimestampMonotonic" = Some userTs ->
  ParseUint userTs 64 = Ok userStartTs ->
  postAllUnitTimingData dbusConn s w =
    (forEach (unitBody dbusConn userStartTs) units >> ret None) w.
Proof.
  intros Hl Hu Hp. unfold postAllUnitTimingData. rewrite Hl.
  unfold bind at 1. unfold getManagerProps. rewrite Hu, Hp. reflexivity.
Qed.

(** C2: when the unit loop reaches a unit [name] (the units before it were
    processed without a panic, leaving the state [w1]) and the unit's
    properties are read and decoded successfully, then a unit whose name ends
    in ".target" gets its record appended whatever its run duration is, and a
    unit without that suffix gets its record appended if its run duration is
    non-zero and nothing appended if it is zero; the collector then goes on
    with the remaining units. *)
Theorem unit_emission_rule dbusConn s w pre name post userTs userStartTs w1 t :
  ListUnitsByPatterns dbusConn [] (Split (UnitPattern s) ","%char) =
    Ok (pre ++ name :: post)%list ->
  managerProps w !! "UserspaceTimestampMonotonic" = Some userTs ->
  ParseUint userTs 64 = Ok userStartTs ->
  forEach (unitBody dbusConn userStartTs) pre w = (Val tt, w1) ->
  getUnitTimingData dbusConn name userStartTs = Val (Ok t) ->
  exists w2,
    postAllUnitTimingData dbusConn s w =
      (forEach (unitBody dbusConn userStartTs) post >> ret None) w2 /\
    (HasSuffix name ".target" = true -> w2 = pushMetric (unitMetric name t) w1) /\
    (HasSuffix name ".target" = false -> runtime t <> 0 ->
       w2 = pushMetric (unitMetric name t) w1) /\
    (HasSuffix name ".target" = false -> runtime t = 0 -> w2 = w1).
Proof.
  intros Hl Hu Hp Hpre Ht.
  exists (if (runtime t =? 0) && negb (HasSuffix name ".target") then w1
          else pushMetric (unitMetric name t) w1).
  split; [|repeat split].
  - rewrite (postAllUnitTimingData_loop _ _ _ _ _ _ Hl Hu Hp).
    unfold bind at 1. rewrite forEach_app, Hpre. cbn [forEach].
    unfold bind at 1. rewrite (unitBody_ok _ _ _ _ _ Ht). reflexivity.
  - intros ->. rewrite andb_false_r. reflexivity.
  - intros -> Hne. apply Z.eqb_neq in Hne. rewrite Hne. reflexivity.
  - intros -> ->. reflexivity.
Qed.

Lemma unit_emission_rule_witness :
  exists w2,
    postAllUnitTimingData connBooted cfgDefault
        (storeProp "UserspaceTimestampMonotonic" "500" World0) =
      (forEach (unitBody connBooted 500) [] >> ret None) w2 /\
    (HasSuffix "b.target" ".target" = true ->
       w2 = pushMetric (unitMetric "b.target"
                          {| activating := 500; activated := 4500; deactivating := 0;
                             deactivated := 0; runtime := 4000 |})
              (pushMetric (unitMetric "a.service"
                          {| activating := 500; activated := 4500; deactivating := 0;
                             deactivated := 0; runtime := 4000 |})
                 (storeProp "UserspaceTimestampMonotonic" "500" World0))) /\
    (HasSuffix "b.target" ".target" = false -> 4000 <> 0 ->
       w2 = pushMetric (unitMetric "b.target"
                          {| activating := 500; activated := 4500; deactivating := 0;
                             deactivated := 0; runtime := 4000 |})
              (pushMetric (unitMetric "a.service"
                          {| activating := 500; activated := 4500; deactivating := 0;
                             deactivated := 0; runtime := 4000 |})
                 (storeProp "UserspaceTimestampMonotonic" "500" World0))) /\
    (HasSuffix "b.target" ".target" = false -> 4000 = 0 ->
       w2 = pushMetric (unitMetric "a.service"
                          {| activating := 500; activated := 4500; deactivating := 0;
                             deactivated := 0; runtime := 4000 |})
              (storeProp "UserspaceTimestampMonotonic" "500" World0)).
Proof.
  exact (unit_emission_rule connBooted cfgDefault
           (storeProp "UserspaceTimestampMonotonic" "500" World0)
           ["a.service"] "b.target" [] "500" 500
           (pushMetric (unitMetric "a.service"
                          {| activating := 500; activated := 4500; deactivating := 0;
                             deactivated := 0; runtime := 4000 |})
              (storeProp "UserspaceTimestampMonotonic" "500" World0))
           {| activating := 500; activated := 4500; deactivating := 0;
              deactivated := 0; runtime := 4000 |}
           eq_refl eq_refl eq_refl eq_refl eq_refl).
Defined.

(** ** postAllManagerProps *)

Lemma managerPropBody_err dbusConn name e w :
  getManagerProp dbusConn name = Val (Err e) ->
  managerPropBody dbusConn name w = (Val tt, w).
Proof. intros H. unfold managerPropBody, bind, liftO. rewrite H. reflexivity. Qed.

Lemma managerPropBody_panic dbusConn name p w :
  getManagerProp dbusConn name = Panic p ->
  managerPropBody dbusConn name w = (Panic p, w).
Proof. intros H. unfold managerPropBody, bind, liftO. rewrite H. reflexivity. Qed.

Lemma managerPropBody_ok dbusConn name propVal w :
  getManagerProp dbusConn name = Val (Ok propVal) ->
  managerPropBody dbusConn name w =
    (Val tt,
     if String.eqb propVal "" || String.eqb propVal "0" then storeProp name propVal w
     else match ParseUint propVal 64 with
          | Err e => pushError e (storeProp name propVal w)
          | Ok value => pushMetric (managerMetric name value) (storeProp name propVal w)
          end).
Proof.
  intros H. unfold managerPropBody, bind, liftO, setManagerProp. rewrite H.
  destruct (String.eqb propVal "" || String.eqb propVal "0"); [reflexivity|].
  destruct (ParseUint propVal 64); reflexivity.
Qed.

(** One round of the manager loop, case by case: a failed read leaves the
    state as it was; a successful read stores the stripped string [propVal]
    and appends the record exactly when [propVal] is neither empty nor the
    literal "0" and decodes; a string that does not decode is reported as an
    error instead. *)
Lemma manager_round_cases dbusConn pre name post w w1 r :
  forEach (managerPropBody dbusConn) pre w = (Val tt, w1) ->
  getManagerProp dbusConn name = Val r ->
  exists w2,
    postAllManagerProps dbusConn (pre ++ name :: post) w =
      (forEach (managerPropBody dbusConn) post >> ret None) w2 /\
    match r with
    | Err _ => w2 = w1
    | Ok propVal =>
        (propVal = "" \/ propVal = "0" -> w2 = storeProp name propVal w1) /\
        (forall e, propVal <> "" -> ParseUint propVal 64 = Err e ->
           w2 = pushError e (storeProp name propVal w1)) /\
        (forall v, propVal <> "0" -> ParseUint propVal 64 = Ok v ->
           w2 = pushMetric (managerMetric name v) (storeProp name propVal w1)) /\
        (forall v, no_leading_zero propVal -> ParseUint propVal 64 = Ok v ->
           w2 = if v =? 0 then storeProp name propVal w1
                else pushMetric (managerMetric name v) (storeProp name propVal w1))
    end.
Proof.
  intros Hpre Hr.
  assert (Hrun : forall w2, managerPropBody dbusConn name w1 = (Val tt, w2) ->
            postAllManagerProps dbusConn (pre ++ name :: post) w =
              (forEach (managerPropBody dbusConn) post >> ret None) w2).
  { intros w2 Hb. unfold postAllManagerProps. unfold bind at 1.
    rewrite forEach_app, Hpre. cbn [forEach]. unfold bind at 1. rewrite Hb.
    reflexivity. }
  destruct r as [propVal|e].
  - eexists. split; [apply Hrun, managerPropBody_ok, Hr|].
    assert (Hnz : forall v, propVal <> "0" -> ParseUint propVal 64 = Ok v ->
              String.eqb propVal "" || String.eqb propVal "0" = false).
    { intros v Hne Hp. apply orb_false_iff. split; apply String.eqb_neq; [|exact Hne].
      intros ->. vm_compute in Hp. discriminate. }
    repeat split.
    + intros [-> | ->]; reflexivity.
    + intros e Hne Hp.
      destruct (String.eqb propVal "") eqn:H1; [apply String.eqb_eq in H1; contradiction|].
      destruct (String.eqb propVal "0") eqn:H2.
      { apply String.eqb_eq in H2. subst. vm_compute in Hp. discriminate. }
      cbn [orb]. rewrite Hp. reflexivity.
    + intros v Hne Hp. rewrite (Hnz v Hne Hp), Hp. reflexivity.
    + intros v Hc Hp.
      pose proof (ParseUint_canonical_zero _ _ Hp Hc) as Hz.
      destruct (v =? 0) eqn:Hv.
      * apply Z.eqb_eq in Hv. apply Hz in Hv. subst propVal. reflexivity.
      * apply Z.eqb_neq in Hv.
        assert (Hne : propVal <> "0") by (intros H0; apply Hv, Hz, H0).
        rewrite (Hnz v Hne Hp), Hp. reflexivity.
  - exists w1. split; [apply Hrun, (managerPropBody_err _ _ e), Hr|reflexivity].
Qed.

(** C3: when the manager loop reaches a milestone [name], a property whose
    read fails adds no record, and so does a property whose value does not
    decode; a property that is read and whose value, printed as the bus
    prints an unsigned 64-bit integer (decimal, no leading zero), decodes to
    [v] gets its record (tag SystemTimestamp = [name], field
    SystemTimestampValue = [v]) appended if and only if [v] is non-zero. *)
Theorem manager_emission_iff_nonzero dbusConn pre name post w w1 :
  forEach (managerPropBody dbusConn) pre w = (Val tt, w1) ->
  (forall e,
     GetManagerProperty dbusConn name = Err e ->
     postAllManagerProps dbusConn (pre ++ name :: post) w =
       (forEach (managerPropBody dbusConn) post >> ret None) w1) /\
  (forall prop propVal e,
     GetManagerProperty dbusConn name = Ok prop ->
     stripType prop = Val propVal ->
     ParseUint propVal 64 = Err e ->
     exists w2,
       postAllManagerProps dbusConn (pre ++ name :: post) w =
         (forEach (managerPropBody dbusConn) post >> ret None) w2 /\
       metrics (acc w2) = metrics (acc w1)) /\
  (forall prop propVal v,
     GetManagerProperty dbusConn name = Ok prop ->
     stripType prop = Val propVal ->
     no_leading_zero propVal ->
     ParseUint propVal 64 = Ok v ->
     exists w2,
       postAllManagerProps dbusConn (pre ++ name :: post) w =
         (forEach (managerPropBody dbusConn) post >> ret None) w2 /\
       errors (acc w2) = errors (acc w1) /\
       (v <> 0 -> metrics (acc w2) = (metrics (acc w1) ++ [managerMetric name v])%list) /\
       (v = 0 -> metrics (acc w2) = metrics (acc w1))).
Proof.
  intros Hpre. split; [|split].
  - intros e He.
    destruct (manager_round_cases dbusConn pre name post w w1 (Err e) Hpre)
      as (w2 & Hrun & ->); [|exact Hrun].
    unfold getManagerProp. rewrite He. reflexivity.
  - intros prop propVal e Hr Hs Hp.
    destruct (manager_round_cases dbusConn pre name post w w1 (Ok propVal) Hpre)
      as (w2 & Hrun & Hempty & Herr & _).
    { unfold getManagerProp. rewrite Hr, Hs. reflexivity. }
    exists w2. split; [exact Hrun|].
    destruct (String.eqb propVal "") eqn:He.
    + apply String.eqb_eq in He. rewrite (Hempty (or_introl He)). reflexivity.
    + apply String.eqb_neq in He. rewrite (Herr e He Hp). reflexivity.
  - intros prop propVal v Hr Hs Hc Hp.
    destruct (manager_round_cases dbusConn pre name post w w1 (Ok propVal) Hpre)
      as (w2 & Hrun & _ & _ & _ & Hcanon).
    { unfold getManagerProp. rewrite Hr, Hs. reflexivity. }
    exists w2. split; [exact Hrun|].
    rewrite (Hcanon v Hc Hp). repeat split.
    + destruct (v =? 0); reflexivity.
    + intros Hv. apply Z.eqb_neq in Hv. rewrite Hv. reflexivity.
    + intros ->. reflexivity.
Qed.

Lemma manager_emission_iff_nonzero_witness :
  exists w2,
    postAllManagerProps connBooted
        (["FirmwareTimestampMonotonic"] ++
         "UserspaceTimestampMonotonic" :: ["FinishTimestampMonotonic"]) World0 =
      (forEach (managerPropBody connBooted) ["FinishTimestampMonotonic"] >> ret None) w2 /\
    metrics (acc w2) =
      (metrics (acc (storeProp "FirmwareTimestampMonotonic" "0" World0)) ++
       [managerMetric "UserspaceTimestampMonotonic" 500])%list.
Proof.
  assert (Hc : no_leading_zero "500").
  { right. exists "5"%char, "00". split; [reflexivity|discriminate]. }
  destruct (manager_emission_iff_nonzero connBooted
              ["FirmwareTimestampMonotonic"] "UserspaceTimestampMonotonic"
              ["FinishTimestampMonotonic"] World0
              (storeProp "FirmwareTimestampMonotonic" "0" World0) eq_refl)
    as (_ & _ & Hok).
  destruct (Hok "@t 500" "500" 500 eq_refl eq_refl Hc eq_refl)
    as (w2 & Hrun & _ & Hemit & _).
  exists w2. split; [exact Hrun|]. apply Hemit. discriminate.
Defined.

Section ManagerLoop.

Variable dbusConn : Conn.

(** One round of the manager loop writes at most the entry of its own key,
    and only after a successful read. *)
Lemma managerPropBody_props n w :
  managerProps (snd (managerPropBody dbusConn n w)) =
  match getManagerProp dbusConn n with
  | Val (Ok v) => <[n := v]> (managerProps w)
  | _ => managerProps w
  end.
Proof.
  destruct (getManagerProp dbusConn n) as [[v|e]|p] eqn:Hg.
  - rewrite (managerPropBody_ok _ _ _ _ Hg). cbn [snd].
    destruct (String.eqb v "" || String.eqb v "0"); [reflexivity|].
    destruct (ParseUint v 64); reflexivity.
  - rewrite (managerPropBody_err _ _ _ _ Hg). reflexivity.
  - rewrite (managerPropBody_panic _ _ _ _ Hg). reflexivity.
Qed.

Lemma managerPropBody_returns n w :
  (forall p, getManagerProp dbusConn n <> Panic p) ->
  fst (managerPropBody dbusConn n w) = Val tt.
Proof.
  intros Hnp. destruct (getManagerProp dbusConn n) as [[v|e]|p] eqn:Hg.
  - rewrite (managerPropBody_ok _ _ _ _ Hg). reflexivity.
  - rewrite (managerPropBody_err _ _ _ _ Hg). reflexivity.
  - exfalso. exact (Hnp p eq_refl).
Qed.

(** An entry whose read fails, or whose key the loop does not visit, keeps
    its value. *)
Lemma manager_loop_keeps name order : forall w,
  name ∉ order \/ (forall v, getManagerProp dbusConn name <> Val (Ok v)) ->
  managerProps (snd (forEach (managerPropBody dbusConn) order w)) !! name =
  managerProps w !! name.
Proof.
  induction order as [|n order IH]; intros w Hk; [reflexivity|].
  rewrite forEach_cons.
  pose proof (managerPropBody_props n w) as Hb.
  assert (Hstep : managerProps (snd (managerPropBody dbusConn n w)) !! name =
                  managerProps w !! name).
  { rewrite Hb. destruct (getManagerProp dbusConn n) as [[v|e]|p] eqn:Hg; try reflexivity.
    apply lookup_insert_ne. intros ->.
    destruct Hk as [Hk|Hk]; [apply Hk; left|exact (Hk v Hg)]. }
  destruct (managerPropBody dbusConn n w) as [[[]|p] w1]; cbn [snd] in *.
  - rewrite IH; [exact Hstep|].
    destruct Hk as [Hk|Hk]; [left|right; exact Hk].
    intros Hin. apply Hk. right. exact Hin.
  - exact Hstep.
Qed.

(** Whatever the loop does, an entry holds its old value or the stripped
    string just read. *)
Lemma manager_loop_old_or_read name order : forall w,
  managerProps (snd (forEach (managerPropBody dbusConn) order w)) !! name =
    managerProps w !! name \/
  exists v, getManagerProp dbusConn name = Val (Ok v) /\
    managerProps (snd (forEach (managerPropBody dbusConn) order w)) !! name = Some v.
Proof.
  induction order as [|n order IH]; intros w; [left; reflexivity|].
  rewrite forEach_cons.
  pose proof (managerPropBody_props n w) as Hb.
  assert (Hstep : managerProps (snd (managerPropBody dbusConn n w)) !! name =
                    managerProps w !! name \/
                  exists v, getManagerProp dbusConn name = Val (Ok v) /\
                    managerProps (snd (managerPropBody dbusConn n w)) !! name = Some v).
  { rewrite Hb. destruct (getManagerProp dbusConn n) as [[v|e]|p] eqn:Hg;
      try (left; reflexivity).
    destruct (decide (n = name)) as [->|Hne].
    - right. exists v. split; [exact Hg|apply lookup_insert_eq].
    - left. apply lookup_insert_ne. exact Hne. }
  destruct (managerPropBody dbusConn n w) as [[[]|p] w1]; cbn [snd] in *;
    [|exact Hstep].
  destruct (IH w1) as [Hsame|Hread]; [|right; exact Hread].
  rewrite Hsame. exact Hstep.
Qed.

(** A loop that runs to its end leaves, for every key it visited and read,
    the stripped string that was read. *)
Lemma manager_loop_stores name v order : forall w,
  getManagerProp dbusConn name = Val (Ok v) ->
  name ∈ order ->
  fst (forEach (managerPropBody dbusConn) order w) = Val tt ->
  managerProps (snd (forEach (managerPropBody dbusConn) order w)) !! name = Some v.
Proof.
  induction order as [|n order IH]; intros w Hg Hin Hret.
  - inversion Hin.
  - rewrite forEach_cons in *.
    pose proof (managerPropBody_props n w) as Hb.
    destruct (managerPropBody dbusConn n w) as [[[]|p] w1]; cbn [snd fst] in *;
      [|discriminate].
    destruct (decide (n = name)) as [->|Hne].
    + rewrite Hg in Hb.
      destruct (manager_loop_old_or_read name order w1) as [Hsame|(v' & Hg' & Hv')].
      * rewrite Hsame, Hb. apply lookup_insert_eq.
      * rewrite Hv'. congruence.
    + apply IH; try assumption.
      apply elem_of_cons in Hin as [Hin|Hin]; [congruence|exact Hin].
Qed.

Lemma manager_loop_returns order : forall w,
  (forall n p, n ∈ order -> getManagerProp dbusConn n <> Panic p) ->
  fst (forEach (managerPropBody dbusConn) order w) = Val tt.
Proof.
  induction order as [|n order IH]; intros w Hnp; [reflexivity|].
  rewrite forEach_cons.
  pose proof (managerPropBody_returns n w
                (fun p => Hnp n p (list_elem_of_here n order))) as Hb.
  destruct (managerPropBody dbusConn n w) as [[[]|p] w1]; cbn [fst] in Hb;
    [|discriminate].
  apply IH. intros n' p Hin. apply Hnp. right. exact Hin.
Qed.

Lemma postAllManagerProps_unfold order w :
  postAllManagerProps dbusConn order w =
  match forEach (managerPropBody dbusConn) order w with
  | (Val _, w') => (Val None, w')
  | (Panic p, w') => (Panic p, w')
  end.
Proof. reflexivity. Qed.

Lemma postAllManagerProps_snd order w :
  snd (postAllManagerProps dbusConn order w) =
  snd (forEach (managerPropBody dbusConn) order w).
Proof.
  rewrite postAllManagerProps_unfold.
  destruct (forEach (managerPropBody dbusConn) order w) as [[[]|p] w']; reflexivity.
Qed.

Lemma manager_pass_entries order w name :
  (forall e, GetManagerProperty dbusConn name = Err e ->
     managerProps (snd (postAllManagerProps dbusConn order w)) !! name =
     managerProps w !! name) /\
  (forall v, getManagerProp dbusConn name = Val (Ok v) ->
     name ∈ order ->
     fst (postAllManagerProps dbusConn order w) = Val None ->
     managerProps (snd (postAllManagerProps dbusConn order w)) !! name = Some v) /\
  ((forall n p, n ∈ order -> getManagerProp dbusConn n <> Panic p) ->
     fst (postAllManagerProps dbusConn order w) = Val None).
Proof.
  rewrite postAllManagerProps_snd. repeat split.
  - intros e He. apply manager_loop_keeps. right. intros v.
    unfold getManagerProp. rewrite He. discriminate.
  - intros v Hg Hin Hret. apply manager_loop_stores; try assumption.
    rewrite postAllManagerProps_unfold in Hret.
    destruct (forEach (managerPropBody dbusConn) order w) as [[[]|p] w'];
      [reflexivity|discriminate].
  - intros Hnp. rewrite postAllManagerProps_unfold.
    pose proof (manager_loop_returns order w Hnp) as Hr.
    destruct (forEach (managerPropBody dbusConn) order w) as [[[]|p] w'];
      [reflexivity|discriminate].
Qed.

End ManagerLoop.

(** C6, as the code has it: after a run of the manager collector, an entry
    whose property read failed is left as it was before the run (the initial
    empty string, or the value stored by an earlier pass); an entry whose
    property was read holds the stripped string that was read, whether or not
    it decodes as a number, provided the run visited the key and returned; and
    the run returns, with a nil error, unless some property lacks its type
    token. *)
Theorem managerProps_after_pass dbusConn order w name :
  (forall e, GetManagerProperty dbusConn name = Err e ->
     managerProps (snd (postAllManagerProps dbusConn order w)) !! name =
     managerProps w !! name) /\
  (forall v, getManagerProp dbusConn name = Val (Ok v) ->
     name ∈ order ->
     fst (postAllManagerProps dbusConn order w) = Val None ->
     managerProps (snd (postAllManagerProps dbusConn order w)) !! name = Some v) /\
  ((forall n p, n ∈ order -> getManagerProp dbusConn n <> Panic p) ->
     fst (postAllManagerProps dbusConn order w) = Val None).
Proof. exact (manager_pass_entries dbusConn order w name). Qed.

Lemma managerProps_after_pass_witness :
  managerProps (snd (postAllManagerProps connGarbled managerPropNames World0))
    !! "FinishTimestampMonotonic" =
  managerProps World0 !! "FinishTimestampMonotonic" /\
  managerProps (snd (postAllManagerProps connGarbled managerPropNames World0))
    !! "UserspaceTimestampMonotonic" = Some "abc" /\
  fst (postAllManagerProps connGarbled managerPropNames World0) = Val None.
Proof.
  split; [|split].
  - exact (proj1 (managerProps_after_pass connGarbled managerPropNames World0
                    "FinishTimestampMonotonic")
             (BusError "no such property") eq_refl).
  - apply (proj1 (proj2 (managerProps_after_pass connGarbled managerPropNames World0
                           "UserspaceTimestampMonotonic"))).
    + reflexivity.
    + unfold managerPropNames. do 3 right. left.
    + reflexivity.
  - apply (proj2 (proj2 (managerProps_after_pass connGarbled managerPropNames World0
                           "UserspaceTimestampMonotonic"))).
    intros n p Hin. unfold getManagerProp, connGarbled. cbn [GetManagerProperty].
    destruct (String.eqb n "UserspaceTimestampMonotonic"); cbn; discriminate.
Defined.

(** C6 as stated fails: a value stored by an earlier pass survives a pass in
    which the read fails, and the unit collector of that later pass computes
    with it; and a value that does not decode is stored as it was read. *)
Lemma stale_value_survives_failed_read :
  let w1 := snd (Gather cfgPeriodic tickBooted World0) in
  let w2 := snd (Gather cfgPeriodic tickUserspaceGone w1) in
  GetManagerProperty connUserspaceGone "UserspaceTimestampMonotonic" =
    Err (BusError "no such property") /\
  managerProps w1 !! "UserspaceTimestampMonotonic" = Some "500" /\
  managerProps w2 !! "UserspaceTimestampMonotonic" = Some "500" /\
  managerProps w2 !! "UserspaceTimestampMonotonic" <> Some "" /\
  List.last (metrics (acc w2)) (managerMetric "" 0) =
    unitMetric "a.service"
      {| activating := 500; activated := 4500; deactivating := 0;
         deactivated := 0; runtime := 4000 |} /\
  ParseUint "abc" 64 = Err (NumError "ParseUint" "abc" ErrSyntax) /\
  managerProps (snd (postAllManagerProps connGarbled managerPropNames World0))
    !! "UserspaceTimestampMonotonic" = Some "abc".
Proof. vm_compute. repeat split. discriminate. Qed.

(** ** The userspace-start reference in postAllUnitTimingData *)

Lemma forEach_outcome {A : Type} (body : A -> M unit) (l : list A) (w : World) (e : error) :
  fst ((forEach body l >> ret (@None error)) w) <> Val (Some e).
Proof.
  unfold bind. destruct (forEach body l w) as [[[]|p] w']; discriminate.
Qed.

(** C8, as the code has it: once the units are enumerated, a missing
    [UserspaceTimestampMonotonic] key makes the unit collector return the
    "not found" error and leave the state as it was; a stored value that is
    not a decimal unsigned 64-bit number (the empty string included) makes it
    return, and report to the accumulator, the parse error instead, with no
    record added; a stored value that parses sends it into the unit loop, and
    the "not found" error is not returned. *)
Theorem userspace_reference_errors dbusConn s w units :
  ListUnitsByPatterns dbusConn [] (Split (UnitPattern s) ","%char) = Ok units ->
  (managerProps w !! "UserspaceTimestampMonotonic" = None ->
     postAllUnitTimingData dbusConn s w = (Val (Some errUserspaceNotFound), w)) /\
  (forall userTs e,
     managerProps w !! "UserspaceTimestampMonotonic" = Some userTs ->
     ParseUint userTs 64 = Err e ->
     postAllUnitTimingData dbusConn s w = (Val (Some e), pushError e w)) /\
  (forall userTs userStartTs,
     managerProps w !! "UserspaceTimestampMonotonic" = Some userTs ->
     ParseUint userTs 64 = Ok userStartTs ->
     postAllUnitTimingData dbusConn s w =
       (forEach (unitBody dbusConn userStartTs) units >> ret None) w /\
     fst (postAllUnitTimingData dbusConn s w) <> Val (Some errUserspaceNotFound)).
Proof.
  intros Hl. repeat split.
  - intros Hu. unfold postAllUnitTimingData. rewrite Hl.
    unfold bind, getManagerProps. rewrite Hu. reflexivity.
  - intros userTs e Hu Hp. unfold postAllUnitTimingData. rewrite Hl.
    unfold bind, getManagerProps. rewrite Hu, Hp. reflexivity.
  - apply (postAllUnitTimingData_loop _ _ _ _ _ _ Hl H H0).
  - rewrite (postAllUnitTimingData_loop _ _ _ _ _ _ Hl H H0).
    apply forEach_outcome.
Qed.

Lemma userspace_reference_errors_witness :
  postAllUnitTimingData connBooted cfgDefault
    {| managerProps := ∅; collectionDone := false;
       acc := {| metrics := []; errors := [] |} |} =
  (Val (Some errUserspaceNotFound),
   {| managerProps := ∅; collectionDone := false;
      acc := {| metrics := []; errors := [] |} |}) /\
  postAllUnitTimingData connBooted cfgDefault World0 =
  (Val (Some (NumError "ParseUint" "" ErrSyntax)),
   pushError (NumError "ParseUint" "" ErrSyntax) World0).
Proof.
  split.
  - apply (proj1 (userspace_reference_errors connBooted cfgDefault
                    {| managerProps := ∅; collectionDone := false;
                       acc := {| metrics := []; errors := [] |} |}
                    ["a.service"; "b.target"] eq_refl)).
    reflexivity.
  - apply (proj1 (proj2 (userspace_reference_errors connBooted cfgDefault World0
                           ["a.service"; "b.target"] eq_refl)) "").
    + reflexivity.
    + reflexivity.
Defined.

(** C8 as stated fails: in the initial state the stored reference is the
    empty string, which is not usable, yet the collector fails with the parse
    error of [strconv.ParseUint], not with the "not found" error. *)
Lemma unusable_reference_is_parse_error :
  managerProps World0 !! "UserspaceTimestampMonotonic" = Some "" /\
  ParseUint "" 64 = Err (NumError "ParseUint" "" ErrSyntax) /\
  fst (postAllUnitTimingData connBooted cfgDefault World0) =
    Val (Some (NumError "ParseUint" "" ErrSyntax)) /\
  fst (postAllUnitTimingData connBooted cfgDefault World0) <>
    Val (Some errUserspaceNotFound) /\
  metrics (acc (snd (postAllUnitTimingData connBooted cfgDefault World0))) = [].
Proof. vm_compute. repeat split. discriminate. Qed.

(** ** Gather *)

Lemma managerPropBody_collectionDone dbusConn n w :
  collectionDone (snd (managerPropBody dbusConn n w)) = collectionDone w.
Proof.
  destruct (getManagerProp dbusConn n) as [[v|e]|p] eqn:Hg.
  - rewrite (managerPropBody_ok _ _ _ _ Hg). cbn [snd].
    destruct (String.eqb v "" || String.eqb v "0"); [reflexivity|].
    destruct (ParseUint v 64); reflexivity.
  - rewrite (managerPropBody_err _ _ _ _ Hg). reflexivity.
  - rewrite (managerPropBody_panic _ _ _ _ Hg). reflexivity.
Qed.

Lemma unitBody_collectionDone dbusConn us n w :
  collectionDone (snd (unitBody dbusConn us n w)) = collectionDone w.
Proof.
  unfold unitBody, bind, liftO.
  destruct (getUnitTimingData dbusConn n us) as [[t|e]|p]; try reflexivity.
  destruct ((runtime t =? 0) && negb (HasSuffix n ".target")); reflexivity.
Qed.

Lemma postAllManagerProps_collectionDone dbusConn order w :
  collectionDone (snd (postAllManagerProps dbusConn order w)) = collectionDone w.
Proof.
  rewrite postAllManagerProps_snd.
  apply (forEach_preserves collectionDone). intros. apply managerPropBody_collectionDone.
Qed.

Lemma postAllUnitTimingData_collectionDone dbusConn s w :
  collectionDone (snd (postAllUnitTimingData dbusConn s w)) = collectionDone w.
Proof.
  unfold postAllUnitTimingData.
  destruct (ListUnitsByPatterns dbusConn [] (Split (UnitPattern s) ","%char))
    as [units|e]; [|reflexivity].
  unfold bind at 1. unfold getManagerProps.
  destruct (managerProps w !! "UserspaceTimestampMonotonic") as [userTs|]; [|reflexivity].
  destruct (ParseUint userTs 64) as [us|e]; [|reflexivity].
  unfold bind.
  pose proof (forEach_preserves collectionDone (unitBody dbusConn us) units
                (unitBody_collectionDone dbusConn us) w) as Hf.
  destruct (forEach (unitBody dbusConn us) units w) as [[[]|p] w']; exact Hf.
Qed.

Lemma Gather_unfold s t w :
  Gather s t w =
  match bootIsFinished (readinessConn t) with
  | Panic p => (Panic p, w)
  | Val false => (Val None, w)
  | Val true =>
      if negb (Periodic s) && collectionDone w then (Val None, w)
      else collect s t w
  end.
Proof.
  unfold Gather. unfold bind at 1. unfold liftO.
  destruct (bootIsFinished (readinessConn t)) as [[|]|p]; try reflexivity.
  cbn [negb]. destruct (Periodic s); cbn [Bool.eqb negb andb]; [reflexivity|].
  unfold bind, getCollectionDone. destruct (collectionDone w); reflexivity.
Qed.

(** A call in one-shot mode after a completed collection. *)
Lemma Gather_done s t w :
  Periodic s = false -> collectionDone w = true ->
  Gather s t w =
  match bootIsFinished (readinessConn t) with
  | Val _ => (Val None, w)
  | Panic p => (Panic p, w)
  end.
Proof.
  intros Hp Hd. rewrite Gather_unfold.
  destruct (bootIsFinished (readinessConn t)) as [[|]|p]; try reflexivity.
  rewrite Hp, Hd. reflexivity.
Qed.

(** What [Gather] does when it gets as far as the collection pass. *)
Lemma Gather_pass s t w dbusConn :
  bootIsFinished (readinessConn t) = Val true ->
  negb (Periodic s) && collectionDone w = false ->
  passConn t = Ok dbusConn ->
  Gather s t w =
  match postAllManagerProps dbusConn (rangeOrder t) w with
  | (Panic p, w1) => (Panic p, w1)
  | (Val (Some e), w1) => (Val (Some e), pushError e w1)
  | (Val None, w1) =>
      match postAllUnitTimingData dbusConn s w1 with
      | (Panic p, w2) => (Panic p, w2)
      | (Val (Some e), w2) => (Val (Some e), pushError e w2)
      | (Val None, w2) =>
          (Val None, {| managerProps := managerProps w2;
                        collectionDone := true;
                        acc := acc w2 |})
      end
  end.
Proof.
  intros Hb Hd Hc. rewrite Gather_unfold, Hb, Hd. unfold collect. rewrite Hc.
  unfold bind at 1.
  destruct (postAllManagerProps dbusConn (rangeOrder t) w) as [[[e|]|p] w1];
    try reflexivity.
  unfold bind at 1.
  destruct (postAllUnitTimingData dbusConn s w1) as [[[e|]|p] w2]; reflexivity.
Qed.

(** The flag changes only on the last line of a pass that returned nil. *)
Lemma Gather_collectionDone s t w :
  collectionDone (snd (Gather s t w)) = collectionDone w \/
  (fst (Gather s t w) = Val None /\
   exists dbusConn,
     bootIsFinished (readinessConn t) = Val true /\
     passConn t = Ok dbusConn /\
     fst (postAllManagerProps dbusConn (rangeOrder t) w) = Val None /\
     fst (postAllUnitTimingData dbusConn s
            (snd (postAllManagerProps dbusConn (rangeOrder t) w))) = Val None).
Proof.
  destruct (bootIsFinished (readinessConn t)) as [[|]|p] eqn:Hb.
  - destruct (negb (Periodic s) && collectionDone w) eqn:Hd.
    + left. rewrite Gather_unfold, Hb, Hd. reflexivity.
    + destruct (passConn t) as [dbusConn|e] eqn:Hc.
      * rewrite (Gather_pass s t w dbusConn Hb Hd Hc).
        pose proof (postAllManagerProps_collectionDone dbusConn (rangeOrder t) w) as H1.
        destruct (postAllManagerProps dbusConn (rangeOrder t) w) as [[[e|]|p] w1] eqn:Hm;
          cbn [snd fst] in *; try (left; exact H1).
        pose proof (postAllUnitTimingData_collectionDone dbusConn s w1) as H2.
        destruct (postAllUnitTimingData dbusConn s w1) as [[[e|]|p] w2] eqn:Hu;
          cbn [snd fst pushError collectionDone] in *; try (left; congruence).
        right. split; [reflexivity|]. exists dbusConn.
        rewrite Hm. cbn [fst snd]. rewrite Hu. repeat split; reflexivity.
      * left. rewrite Gather_unfold, Hb, Hd. unfold collect. rewrite Hc. reflexivity.
  - left. rewrite Gather_unfold, Hb. reflexivity.
  - left. rewrite Gather_unfold, Hb. reflexivity.
Qed.

(** C7: in one-shot mode ([Periodic = false]), once [collectionDone] is true
    every later call of [Gather], whatever the bus answers, leaves the whole
    state as it was (no record and no error is added, the flag stays true);
    and a call that turns [collectionDone] from false to true returned nil
    after the boot check succeeded and both collectors returned nil, so that a
    call returning an error or panicking leaves the flag as it was. *)
Theorem one_shot_collection s :
  (Periodic s = false ->
   forall ts w, collectionDone w = true -> runTicks s ts w = w) /\
  (forall t w,
     collectionDone w = false ->
     collectionDone (snd (Gather s t w)) = true ->
     fst (Gather s t w) = Val None /\
     exists dbusConn,
       bootIsFinished (readinessConn t) = Val true /\
       passConn t = Ok dbusConn /\
       fst (postAllManagerProps dbusConn (rangeOrder t) w) = Val None /\
       fst (postAllUnitTimingData dbusConn s
              (snd (postAllManagerProps dbusConn (rangeOrder t) w))) = Val None) /\
  (forall t w,
     fst (Gather s t w) <> Val None ->
     collectionDone (snd (Gather s t w)) = collectionDone w).
Proof.
  repeat split.
  - intros Hp ts. induction ts as [|t ts IH]; intros w Hd; [reflexivity|].
    cbn [runTicks].
    assert (Hs : snd (Gather s t w) = w).
    { rewrite (Gather_done s t w Hp Hd).
      destruct (bootIsFinished (readinessConn t)); reflexivity. }
    rewrite Hs. apply IH. exact Hd.
  - destruct (Gather_collectionDone s t w) as [Hsame|[Hnil _]]; [congruence|exact Hnil].
  - destruct (Gather_collectionDone s t w) as [Hsame|[_ Hex]]; [congruence|exact Hex].
  - intros t w Hne.
    destruct (Gather_collectionDone s t w) as [Hsame|[Hnil _]]; [exact Hsame|contradiction].
Qed.

Lemma one_shot_collection_witness :
  runTicks cfgDefault [tickBooted; tickUserspaceGone]
    (snd (Gather cfgDefault tickBooted World0)) =
  snd (Gather cfgDefault tickBooted World0) /\
  fst (Gather cfgDefault tickBooted World0) = Val None.
Proof.
  split.
  - apply (proj1 (one_shot_collection cfgDefault)); reflexivity.
  - apply (proj1 (proj2 (one_shot_collection cfgDefault)) tickBooted World0);
      reflexivity.
Defined.

(** ** stripType and panics *)

Lemma Split_nonempty s sep : (1 <= List.length (Split s sep))%nat.
Proof.
  induction s as [|c s IH]; cbn [Split]; [cbn; lia|].
  destruct (Ascii.eqb c sep); [cbn; lia|].
  destruct (Split s sep); cbn in *; lia.
Qed.

Lemma Gather_boot_panic s t w p :
  bootIsFinished (readinessConn t) = Panic p -> Gather s t w = (Panic p, w).
Proof. intros H. unfold Gather, bind, liftO. rewrite H. reflexivity. Qed.

(** C9, as the code has it: an input without a space (one token) makes
    [stripType] panic with an index out of range and return nothing; an input
    with two or more tokens, not only with exactly two, yields its second
    token; and the panic is not turned into an error anywhere in the
    collector: raised in the boot check or in either collector it comes out of
    [Gather] as a panic. *)
Theorem stripType_index_panic :
  (forall str, (1 <= List.length (Split str " "%char))%nat) /\
  (forall str, List.length (Split str " "%char) = 1%nat ->
     stripType str = Panic (IndexOutOfRange 1 1)) /\
  (forall str, (2 <= List.length (Split str " "%char))%nat ->
     exists v, nth_error (Split str " "%char) 1 = Some v /\ stripType str = Val v) /\
  (forall s t w p,
     bootIsFinished (readinessConn t) = Panic p -> Gather s t w = (Panic p, w)) /\
  (forall s t w dbusConn p,
     bootIsFinished (readinessConn t) = Val true ->
     negb (Periodic s) && collectionDone w = false ->
     passConn t = Ok dbusConn ->
     fst (postAllManagerProps dbusConn (rangeOrder t) w) = Panic p ->
     fst (Gather s t w) = Panic p) /\
  (forall s t w dbusConn p,
     bootIsFinished (readinessConn t) = Val true ->
     negb (Periodic s) && collectionDone w = false ->
     passConn t = Ok dbusConn ->
     fst (postAllManagerProps dbusConn (rangeOrder t) w) = Val None ->
     fst (postAllUnitTimingData dbusConn s
            (snd (postAllManagerProps dbusConn (rangeOrder t) w))) = Panic p ->
     fst (Gather s t w) = Panic p).
Proof.
  split; [intros str; apply Split_nonempty|].
  split; [|split; [|split; [|split]]].
  - intros str Hlen. unfold stripType.
    destruct (Split str " "%char) as [|a [|b l]]; try discriminate. reflexivity.
  - intros str Hlen. unfold stripType.
    destruct (Split str " "%char) as [|a [|b l]]; cbn in Hlen; try lia.
    exists b. split; reflexivity.
  - intros s t w p. apply Gather_boot_panic.
  - intros s t w dbusConn p Hb Hd Hc Hm.
    rewrite (Gather_pass s t w dbusConn Hb Hd Hc).
    destruct (postAllManagerProps dbusConn (rangeOrder t) w) as [[[e|]|p'] w1];
      cbn [fst] in *; try discriminate. exact Hm.
  - intros s t w dbusConn p Hb Hd Hc Hm Hu.
    rewrite (Gather_pass s t w dbusConn Hb Hd Hc).
    destruct (postAllManagerProps dbusConn (rangeOrder t) w) as [[[e|]|p'] w1];
      cbn [fst snd] in *; try discriminate.
    destruct (postAllUnitTimingData dbusConn s w1) as [[[e|]|p'] w2];
      cbn [fst] in *; try discriminate. exact Hu.
Qed.

Lemma stripType_index_panic_witness :
  stripType "900" = Panic (IndexOutOfRange 1 1) /\
  Gather cfgDefault tickUntyped World0 = (Panic (IndexOutOfRange 1 1), World0).
Proof.
  split.
  - apply (proj1 (proj2 stripType_index_panic) "900"). reflexivity.
  - apply (proj1 (proj2 (proj2 (proj2 stripType_index_panic)))
             cfgDefault tickUntyped World0 (IndexOutOfRange 1 1)).
    reflexivity.
Defined.

(** C9 as stated fails twice: an input of three tokens lacks the two-token
    shape, yet it is decoded to a value; and the failure on an input of one
    token is a panic that leaves [Gather] unrecovered, not a returned error. *)
Lemma three_tokens_decoded_and_panic_escapes :
  List.length (Split "@t 12 x" " "%char) = 3%nat /\
  stripType "@t 12 x" = Val "12" /\
  ParseUint "12" 64 = Ok 12 /\
  List.length (Split "900" " "%char) = 1%nat /\
  fst (Gather cfgDefault tickUntyped World0) = Panic (IndexOutOfRange 1 1).
Proof. repeat split. Qed.

(** ** The keys of managerProps *)

Lemma dom_managerProps0 : dom managerProps0 = list_to_set managerPropNames.
Proof. unfold managerProps0. rewrite dom_list_to_map_L. reflexivity. Qed.

Lemma managerProps0_userspace :
  managerProps0 !! "UserspaceTimestampMonotonic" = Some "".
Proof. reflexivity. Qed.

(** Writing to a key keeps every key: the map only ever grows, and does not
    grow when the key is already there. *)
Lemma managerPropBody_dom dbusConn n w :
  dom (managerProps w) ⊆ dom (managerProps (snd (managerPropBody dbusConn n w))) /\
  (n ∈ dom (managerProps w) ->
   dom (managerProps (snd (managerPropBody dbusConn n w))) = dom (managerProps w)).
Proof.
  rewrite managerPropBody_props.
  destruct (getManagerProp dbusConn n) as [[v|e]|p]; try (split; reflexivity).
  rewrite dom_insert_L. split; [apply union_subseteq_r|].
  intros Hin. apply subseteq_union_1_L, singleton_subseteq_l, Hin.
Qed.

Lemma manager_loop_dom dbusConn order : forall w,
  dom (managerProps w) ⊆
    dom (managerProps (snd (forEach (managerPropBody dbusConn) order w))) /\
  ((forall n, n ∈ order -> n ∈ dom (managerProps w)) ->
   dom (managerProps (snd (forEach (managerPropBody dbusConn) order w))) =
   dom (managerProps w)).
Proof.
  induction order as [|n order IH]; intros w; [split; reflexivity|].
  rewrite forEach_cons.
  destruct (managerPropBody_dom dbusConn n w) as [Hsub Heq].
  destruct (managerPropBody dbusConn n w) as [[[]|p] w1]; cbn [snd] in *.
  - destruct (IH w1) as [Hsub1 Heq1]. split; [etrans; eassumption|].
    intros Hin. rewrite Heq1.
    + apply Heq, Hin. left.
    + intros n' Hn'. apply Hsub, Hin. right. exact Hn'.
  - split; [exact Hsub|]. intros Hin. apply Heq, Hin. left.
Qed.

Lemma unitBody_managerProps dbusConn us n w :
  managerProps (snd (unitBody dbusConn us n w)) = managerProps w.
Proof.
  unfold unitBody, bind, liftO.
  destruct (getUnitTimingData dbusConn n us) as [[t|e]|p]; try reflexivity.
  destruct ((runtime t =? 0) && negb (HasSuffix n ".target")); reflexivity.
Qed.

(** The unit collector never writes to [managerProps]. *)
Lemma postAllUnitTimingData_managerProps dbusConn s w :
  managerProps (snd (postAllUnitTimingData dbusConn s w)) = managerProps w.
Proof.
  unfold postAllUnitTimingData.
  destruct (ListUnitsByPatterns dbusConn [] (Split (UnitPattern s) ","%char))
    as [units|e]; [|reflexivity].
  unfold bind at 1. unfold getManagerProps.
  destruct (managerProps w !! "UserspaceTimestampMonotonic") as [userTs|]; [|reflexivity].
  destruct (ParseUint userTs 64) as [us|e]; [|reflexivity].
  unfold bind.
  pose proof (forEach_preserves managerProps (unitBody dbusConn us) units
                (unitBody_managerProps dbusConn us) w) as Hf.
  destruct (forEach (unitBody dbusConn us) units w) as [[[]|p] w']; exact Hf.
Qed.

(** [Gather] changes [managerProps] through the manager collector only. *)
Lemma Gather_managerProps s t w :
  managerProps (snd (Gather s t w)) = managerProps w \/
  exists dbusConn,
    passConn t = Ok dbusConn /\
    managerProps (snd (Gather s t w)) =
    managerProps (snd (postAllManagerProps dbusConn (rangeOrder t) w)).
Proof.
  destruct (bootIsFinished (readinessConn t)) as [[|]|p] eqn:Hb.
  - destruct (negb (Periodic s) && collectionDone w) eqn:Hd.
    + left. rewrite Gather_unfold, Hb, Hd. reflexivity.
    + destruct (passConn t) as [dbusConn|e] eqn:Hc.
      * right. exists dbusConn. split; [reflexivity|].
        rewrite (Gather_pass s t w dbusConn Hb Hd Hc).
        destruct (postAllManagerProps dbusConn (rangeOrder t) w) as [[[e|]|p] w1];
          cbn [snd]; try reflexivity.
        pose proof (postAllUnitTimingData_managerProps dbusConn s w1) as Hu.
        destruct (postAllUnitTimingData dbusConn s w1) as [[[e|]|p] w2];
          cbn [snd] in *; exact Hu.
      * left. rewrite Gather_unfold, Hb, Hd. unfold collect. rewrite Hc. reflexivity.
  - left. rewrite Gather_unfold, Hb. reflexivity.
  - left. rewrite Gather_unfold, Hb. reflexivity.
Qed.

Lemma range_of_elem m order n : range_of m order -> n ∈ order -> n ∈ dom m.
Proof.
  unfold range_of. intros Hp Hin. rewrite Hp in Hin.
  apply elem_of_elements in Hin. exact Hin.
Qed.

Lemma postAllManagerProps_dom dbusConn order w :
  range_of (managerProps w) order ->
  dom (managerProps (snd (postAllManagerProps dbusConn order w))) = dom (managerProps w).
Proof.
  intros Hr. rewrite postAllManagerProps_snd.
  apply manager_loop_dom. intros n Hin. exact (range_of_elem _ _ _ Hr Hin).
Qed.

(** Every reachable state has exactly the seventeen keys. *)
Lemma reachable_dom w :
  reachable w -> dom (managerProps w) = list_to_set managerPropNames.
Proof.
  induction 1 as [a|w w' Hw IH Hstep]; [apply dom_managerProps0|].
  destruct Hstep as [s t w Hr].
  destruct (Gather_managerProps s t w) as [Hsame|(dbusConn & _ & Hpass)].
  - rewrite Hsame. exact IH.
  - rewrite Hpass, postAllManagerProps_dom by exact Hr. exact IH.
Qed.

Lemma reachable_unread_userspace w :
  reachable_unread w -> managerProps w !! "UserspaceTimestampMonotonic" = Some "".
Proof.
  induction 1 as [a|s t w Hw IH Hr Hun]; [apply managerProps0_userspace|].
  destruct (Gather_managerProps s t w) as [Hsame|(dbusConn & Hc & Hpass)].
  - rewrite Hsame. exact IH.
  - rewrite Hpass. destruct (Hun dbusConn Hc) as [e He].
    rewrite (proj1 (manager_pass_entries dbusConn (rangeOrder t) w
                      "UserspaceTimestampMonotonic") e He).
    exact IH.
Qed.

Lemma ParseUint_err_inv s bitSize e :
  ParseUint s bitSize = Err e -> exists k, e = NumError "ParseUint" s k.
Proof.
  unfold ParseUint. destruct (parseUint s bitSize) as [n [k|]]; [|discriminate].
  intros H. injection H as <-. exists k. reflexivity.
Qed.

Lemma userspace_in_names :
  "UserspaceTimestampMonotonic" ∈ (list_to_set managerPropNames : gset string).
Proof. apply elem_of_list_to_set. unfold managerPropNames. do 3 right. left. Qed.

(** The order in which the keys are written in the source is one of the
    orders [range managerProps] can take in the initial state. *)
Lemma range_of_managerProps0 : range_of managerProps0 managerPropNames.
Proof.
  unfold range_of. apply NoDup_Permutation.
  - apply (bool_decide_unpack _). vm_compute. reflexivity.
  - apply NoDup_elements.
  - intros x. rewrite elem_of_elements, dom_managerProps0, elem_of_list_to_set.
    reflexivity.
Qed.

(** The state after a first successful call is reachable. *)
Example reachable_after_first_tick :
  reachable (snd (Gather cfgDefault tickBooted World0)).
Proof.
  eapply reachable_tick; [apply (reachable_start {| metrics := []; errors := [] |})|].
  apply (tick_step_intro cfgDefault tickBooted World0). apply range_of_managerProps0.
Qed.

(** C10: in every state the process can reach, [managerProps] has exactly
    its seventeen initial keys, so the lookup of
    [UserspaceTimestampMonotonic] finds a value, at the start of a call and
    at the point inside a call where the unit collector runs, and the unit
    collector does not take its "not found" branch; as long as the userspace
    timestamp has not been read the stored value is the empty string, and on
    the empty string the unit collector fails with the syntax error of
    [strconv.ParseUint]. *)
Theorem userspace_key_always_found :
  (forall w, reachable w ->
     dom (managerProps w) = list_to_set managerPropNames /\
     is_Some (managerProps w !! "UserspaceTimestampMonotonic")) /\
  (forall w t dbusConn, reachable w ->
     range_of (managerProps w) (rangeOrder t) ->
     is_Some (managerProps (snd (postAllManagerProps dbusConn (rangeOrder t) w))
                !! "UserspaceTimestampMonotonic")) /\
  (forall w t dbusConn s units, reachable w ->
     range_of (managerProps w) (rangeOrder t) ->
     ListUnitsByPatterns dbusConn [] (Split (UnitPattern s) ","%char) = Ok units ->
     fst (postAllUnitTimingData dbusConn s
            (snd (postAllManagerProps dbusConn (rangeOrder t) w))) <>
     Val (Some errUserspaceNotFound)) /\
  (forall w, reachable_unread w ->
     managerProps w !! "UserspaceTimestampMonotonic" = Some "") /\
  (forall w dbusConn s units,
     managerProps w !! "UserspaceTimestampMonotonic" = Some "" ->
     ListUnitsByPatterns dbusConn [] (Split (UnitPattern s) ","%char) = Ok units ->
     postAllUnitTimingData dbusConn s w =
       (Val (Some errParseEmpty), pushError errParseEmpty w)).
Proof.
  assert (Hmid : forall w t dbusConn, reachable w ->
            range_of (managerProps w) (rangeOrder t) ->
            is_Some (managerProps (snd (postAllManagerProps dbusConn (rangeOrder t) w))
                       !! "UserspaceTimestampMonotonic")).
  { intros w t dbusConn Hw Hr. apply elem_of_dom.
    rewrite (postAllManagerProps_dom _ _ _ Hr), (reachable_dom w Hw).
    apply userspace_in_names. }
  split; [|split; [exact Hmid|split; [|split]]].
  - intros w Hw. split; [apply reachable_dom, Hw|].
    apply elem_of_dom. rewrite (reachable_dom w Hw). apply userspace_in_names.
  - intros w t dbusConn s units Hw Hr Hl.
    destruct (Hmid w t dbusConn Hw Hr) as [userTs Hu].
    set (w1 := snd (postAllManagerProps dbusConn (rangeOrder t) w)) in *.
    destruct (ParseUint userTs 64) as [us|e] eqn:Hp.
    + rewrite (postAllUnitTimingData_loop _ _ _ _ _ _ Hl Hu Hp). apply forEach_outcome.
    + unfold postAllUnitTimingData. rewrite Hl.
      unfold bind, getManagerProps. rewrite Hu, Hp. cbn [fst].
      apply ParseUint_err_inv in Hp as [k ->]. discriminate.
  - apply reachable_unread_userspace.
  - intros w dbusConn s units Hu Hl. unfold postAllUnitTimingData. rewrite Hl.
    unfold bind, getManagerProps. rewrite Hu. reflexivity.
Qed.

Lemma userspace_key_always_found_witness :
  is_Some (managerProps (snd (Gather cfgDefault tickBooted World0))
             !! "UserspaceTimestampMonotonic") /\
  managerProps World0 !! "UserspaceTimestampMonotonic" = Some "" /\
  postAllUnitTimingData connBooted cfgDefault World0 =
    (Val (Some errParseEmpty), pushError errParseEmpty World0).
Proof.
  split; [|split].
  - apply (proj1 userspace_key_always_found).
    eapply reachable_tick; [apply (reachable_start {| metrics := []; errors := [] |})|].
    apply (tick_step_intro cfgDefault tickBooted World0).
    change (range_of managerProps0 managerPropNames).
    unfold range_of. apply NoDup_Permutation.
    + apply (bool_decide_unpack _). vm_compute. reflexivity.
    + apply NoDup_elements.
    + intros x. rewrite elem_of_elements, dom_managerProps0, elem_of_list_to_set.
      reflexivity.
  - apply (proj1 (proj2 (proj2 (proj2 userspace_key_always_found)))).
    apply (reachable_unread_start {| metrics := []; errors := [] |}).
  - apply (proj2 (proj2 (proj2 (proj2 userspace_key_always_found)))
             World0 connBooted cfgDefault ["a.service"; "b.target"]);
      reflexivity.
Defined.

(** * Further properties of the plugin *)

(** ** stripType on well-shaped and on token-free input *)

Lemma Split_no_sep s sep : contains sep s = false -> Split s sep = [s].
Proof.
  induction s as [|c s IH]; cbn [contains Split]; [reflexivity|].
  intros H. apply orb_false_iff in H as [Hc Hs].
  rewrite Hc, (IH Hs). reflexivity.
Qed.

Lemma Split_app s sep rest :
  contains sep s = false ->
  Split (s ++ String sep rest) sep = s :: Split rest sep.
Proof.
  induction s as [|c s IH]; intros H.
  - change (Split (String sep rest) sep = "" :: Split rest sep).
    cbn [Split]. rewrite Ascii.eqb_refl. reflexivity.
  - cbn [contains] in H. apply orb_false_iff in H as [Hc Hs].
    change (Split (String c (s ++ String sep rest)) sep = String c s :: Split rest sep).
    cbn [Split]. rewrite Hc, (IH Hs). reflexivity.
Qed.

Lemma Split_length_one s sep :
  List.length (Split s sep) = 1%nat <-> contains sep s = false.
Proof.
  split; [|intros H; rewrite (Split_no_sep _ _ H); reflexivity].
  induction s as [|c s IH]; cbn [contains Split]; [reflexivity|].
  destruct (Ascii.eqb c sep); cbn [orb].
  - pose proof (Split_nonempty s sep). cbn [List.length]. lia.
  - pose proof (Split_nonempty s sep) as Hn.
    destruct (Split s sep) as [|t ts]; [cbn in Hn; lia|].
    intros H. apply IH. exact H.
Qed.

(** X1: [stripType] panics exactly on the strings that contain no space,
    and the panic is always "index 1 out of range for length 1". *)
Theorem stripType_panics_iff_no_space str :
  (stripType str = Panic (IndexOutOfRange 1 1) <-> contains " "%char str = false) /\
  (forall p, stripType str = Panic p -> p = IndexOutOfRange 1 1).
Proof.
  assert (Hp : forall p, stripType str = Panic p ->
            List.length (Split str " "%char) = 1%nat /\ p = IndexOutOfRange 1 1).
  { intros p. unfold stripType.
    pose proof (Split_nonempty str " "%char) as Hn.
    destruct (Split str " "%char) as [|a [|b l]]; cbn in *; try lia; try discriminate.
    intros H. injection H as <-. split; reflexivity. }
  split; [split|].
  - intros H. apply Split_length_one. apply (Hp _ H).
  - intros H. unfold stripType. rewrite (Split_no_sep _ _ H). reflexivity.
  - intros p H. apply (Hp _ H).
Qed.

Lemma stripType_panics_iff_no_space_witness :
  stripType "900" = Panic (IndexOutOfRange 1 1).
Proof.
  apply (proj2 (proj1 (stripType_panics_iff_no_space "900"))). reflexivity.
Defined.

(** X2: on a rendered value "<type> <value>" whose two tokens hold no space,
    [stripType] returns the value token whatever the type token is, and it
    does the same when further tokens follow. *)
Theorem stripType_discards_type ty v :
  contains " "%char ty = false ->
  contains " "%char v = false ->
  stripType (ty ++ " " ++ v) = Val v /\
  (forall rest, stripType (ty ++ " " ++ v ++ " " ++ rest) = Val v).
Proof.
  intros Hty Hv. unfold stripType. split.
  - change (ty ++ " " ++ v)%string with (ty ++ String " " v)%string.
    rewrite (Split_app _ _ _ Hty), (Split_no_sep _ _ Hv). reflexivity.
  - intros rest.
    change (ty ++ " " ++ v ++ " " ++ rest)%string
      with (ty ++ String " " (v ++ String " " rest))%string.
    rewrite (Split_app _ _ _ Hty), (Split_app _ _ _ Hv). reflexivity.
Qed.

Lemma stripType_discards_type_witness :
  stripType "@t 1234" = Val "1234" /\
  stripType "@t 1234 trailing words" = Val "1234".
Proof.
  split.
  - apply (proj1 (stripType_discards_type "@t" "1234" eq_refl eq_refl)).
  - apply (proj2 (stripType_discards_type "@t" "1234" eq_refl eq_refl) "trailing words").
Defined.

(** ** The boot check below 2^31 *)

(** A successful parse stays successful under any bound the result fits. *)
Lemma parseUintLoop_maxVal maxVal1 maxVal2 s : forall n v,
  0 <= n ->
  parseUintLoop maxVal1 s n = (v, None) ->
  v <= maxVal2 ->
  parseUintLoop maxVal2 s n = (v, None).
Proof.
  induction s as [|c s IH]; intros n v Hn H Hv; [exact H|].
  pose proof (parseUintLoop_step _ _ _ _ _ H) as (Hd & Hc & Hmax & Hle & Hrest).
  pose proof (add64_range (mul64 n 10) (digitVal c)) as Hr.
  assert (Hmono : add64 (mul64 n 10) (digitVal c) <= v)
    by (apply (parseUintLoop_mono _ _ _ _ (proj1 Hr) Hrest)).
  cbn [parseUintLoop]. cbv zeta. fold (digitVal c).
  assert (Hdig : (48 <=? Z.of_N (N_of_ascii c)) && (Z.of_N (N_of_ascii c) <=? 57) = true).
  { unfold digitVal in Hd. apply andb_true_iff. split; apply Z.leb_le; lia. }
  rewrite Hdig.
  assert (Hcut : (cutoff10 <=? n) = false) by (apply Z.leb_gt; lia).
  rewrite Hcut.
  assert (Hov : (add64 (mul64 n 10) (digitVal c) <? mul64 n 10) ||
                (maxVal2 <? add64 (mul64 n 10) (digitVal c)) = false).
  { apply orb_false_iff. split; apply Z.ltb_ge; lia. }
  rewrite Hov. apply IH; [lia|exact Hrest|exact Hv].
Qed.

(** Below 2^31 the signed 32-bit parse agrees with the unsigned 64-bit one. *)
Lemma ParseInt_32_of_ParseUint_64 v n :
  ParseUint v 64 = Ok n -> n < 2 ^ 31 -> ParseInt v 32 = Ok n.
Proof.
  intros Hp Hn. apply ParseUint_ok_inv in Hp as [Hne Hloop].
  destruct v as [|c rest]; [contradiction|].
  pose proof (parseUintLoop_step _ _ _ _ _ Hloop) as (Hd & _).
  assert (Hplus : Ascii.eqb c "+" = false).
  { apply Ascii.eqb_neq. intros ->. vm_compute in Hd. destruct Hd as [Hd _]. apply Hd. reflexivity. }
  assert (Hminus : Ascii.eqb c "-" = false).
  { apply Ascii.eqb_neq. intros ->. vm_compute in Hd. destruct Hd as [Hd _]. apply Hd. reflexivity. }
  unfold ParseInt. rewrite Hplus, Hminus. cbn [orb negb andb].
  unfold parseUint. cbn [String.eqb].
  rewrite (parseUintLoop_maxVal _ (2 ^ 32 - 1) _ _ _ (Z.le_refl 0) Hloop)
    by (change (2 ^ 32 - 1) with 4294967295; change (2 ^ 31) with 2147483648 in Hn; lia).
  assert (Hc : (2 ^ (32 - 1) <=? n) = false)
    by (apply Z.leb_gt; exact Hn).
  rewrite Hc. reflexivity.
Qed.

(** X3: when [FinishTimestampMonotonic] is read, has its type token and
    decodes as an unsigned 64-bit value below 2^31, the boot check answers
    true exactly when that value is non-zero. *)
Theorem bootIsFinished_below_2_31 dbusConn prop v n :
  GetManagerProperty dbusConn "FinishTimestampMonotonic" = Ok prop ->
  stripType prop = Val v ->
  ParseUint v 64 = Ok n ->
  n < 2 ^ 31 ->
  bootIsFinished (Ok dbusConn) = Val (negb (n =? 0)).
Proof.
  intros Hr Hs Hp Hn. unfold bootIsFinished, getManagerProp.
  rewrite Hr, Hs. cbn [bindO].
  rewrite (ParseInt_32_of_ParseUint_64 _ _ Hp Hn). reflexivity.
Qed.

Lemma bootIsFinished_below_2_31_witness :
  bootIsFinished (Ok connBooted) = Val (negb (900 =? 0)).
Proof.
  apply (bootIsFinished_below_2_31 connBooted "@t 900" "900" 900);
    [reflexivity|reflexivity|reflexivity|vm_compute; reflexivity].
Defined.

(** ** getUnitTimingData: read failures and exact normalization *)

(** X4: a failure of any of the four property reads of a unit is returned
    as the error of [getUnitTimingData], the first failing read in source
    order deciding; the values already read are not inspected, so no panic
    can occur. *)
Theorem getUnitTimingData_read_error dbusConn unitName userSpaceStart e :
  (GetUnitProperty dbusConn unitName "InactiveExitTimestampMonotonic" = Err e ->
   getUnitTimingData dbusConn unitName userSpaceStart = Val (Err e)) /\
  (forall p1,
   GetUnitProperty dbusConn unitName "InactiveExitTimestampMonotonic" = Ok p1 ->
   GetUnitProperty dbusConn unitName "ActiveEnterTimestampMonotonic" = Err e ->
   getUnitTimingData dbusConn unitName userSpaceStart = Val (Err e)) /\
  (forall p1 p2,
   GetUnitProperty dbusConn unitName "InactiveExitTimestampMonotonic" = Ok p1 ->
   GetUnitProperty dbusConn unitName "ActiveEnterTimestampMonotonic" = Ok p2 ->
   GetUnitProperty dbusConn unitName "ActiveExitTimestampMonotonic" = Err e ->
   getUnitTimingData dbusConn unitName userSpaceStart = Val (Err e)) /\
  (forall p1 p2 p3,
   GetUnitProperty dbusConn unitName "InactiveExitTimestampMonotonic" = Ok p1 ->
   GetUnitProperty dbusConn unitName "ActiveEnterTimestampMonotonic" = Ok p2 ->
   GetUnitProperty dbusConn unitName "ActiveExitTimestampMonotonic" = Ok p3 ->
   GetUnitProperty dbusConn unitName "InactiveEnterTimestampMonotonic" = Err e ->
   getUnitTimingData dbusConn unitName userSpaceStart = Val (Err e)).
Proof.
  unfold getUnitTimingData. repeat split.
  - intros ->. reflexivity.
  - intros p1 -> ->. reflexivity.
  - intros p1 p2 -> -> ->. reflexivity.
  - intros p1 p2 p3 -> -> -> ->. reflexivity.
Qed.

(** What [getUnitTimingData] returns once everything is read and decoded. *)
Lemma getUnitTimingData_ok dbusConn unitName userSpaceStart
    p1 p2 p3 p4 s1 s2 s3 s4 r1 r2 r3 r4 :
  GetUnitProperty dbusConn unitName "InactiveExitTimestampMonotonic" = Ok p1 ->
  GetUnitProperty dbusConn unitName "ActiveEnterTimestampMonotonic" = Ok p2 ->
  GetUnitProperty dbusConn unitName "ActiveExitTimestampMonotonic" = Ok p3 ->
  GetUnitProperty dbusConn unitName "InactiveEnterTimestampMonotonic" = Ok p4 ->
  stripType p1 = Val s1 -> stripType p2 = Val s2 ->
  stripType p3 = Val s3 -> stripType p4 = Val s4 ->
  ParseUint s1 64 = Ok r1 -> ParseUint s2 64 = Ok r2 ->
  ParseUint s3 64 = Ok r3 -> ParseUint s4 64 = Ok r4 ->
  getUnitTimingData dbusConn unitName userSpaceStart =
    Val (Ok {| activating := normalize r1 userSpaceStart;
               activated := normalize r2 userSpaceStart;
               deactivating := normalize r3 userSpaceStart;
               deactivated := normalize r4 userSpaceStart;
               runtime := runDuration (normalize r1 userSpaceStart)
                            (normalize r2 userSpaceStart)
                            (normalize r4 userSpaceStart) |}).
Proof.
  intros G1 G2 G3 G4 S1 S2 S3 S4 P1 P2 P3 P4. unfold getUnitTimingData.
  rewrite G1, G2, G3, G4, S1. cbn [bindO]. rewrite P1, S2. cbn [bindO].
  rewrite P2, S3. cbn [bindO]. rewrite P3, S4. cbn [bindO]. rewrite P4.
  reflexivity.
Qed.

Lemma normalize_cases t userSpaceStart :
  is_uint64 t -> 0 <= userSpaceStart -> t = 0 \/ userSpaceStart <= t ->
  normalize t userSpaceStart = if t =? 0 then 0 else t - userSpaceStart.
Proof.
  intros Ht Hus Hc. destruct (t =? 0) eqn:Hz.
  - apply Z.eqb_eq in Hz. subst. reflexivity.
  - apply Z.eqb_neq in Hz. apply normalize_exact; [exact Ht|exact Hz|].
    destruct Hc; [contradiction|lia].
Qed.

(** X5: when no non-zero raw timestamp of a unit lies before the
    userspace-start reference, every returned timestamp is the raw value minus
    the reference (zero stays zero), and for a unit that was activating and
    became active later the run duration is the difference of the two raw
    timestamps, whatever the reference is. *)
Theorem getUnitTimingData_exact dbusConn unitName userSpaceStart
    p1 p2 p3 p4 s1 s2 s3 s4 r1 r2 r3 r4 :
  GetUnitProperty dbusConn unitName "InactiveExitTimestampMonotonic" = Ok p1 ->
  GetUnitProperty dbusConn unitName "ActiveEnterTimestampMonotonic" = Ok p2 ->
  GetUnitProperty dbusConn unitName "ActiveExitTimestampMonotonic" = Ok p3 ->
  GetUnitProperty dbusConn unitName "InactiveEnterTimestampMonotonic" = Ok p4 ->
  stripType p1 = Val s1 -> stripType p2 = Val s2 ->
  stripType p3 = Val s3 -> stripType p4 = Val s4 ->
  ParseUint s1 64 = Ok r1 -> ParseUint s2 64 = Ok r2 ->
  ParseUint s3 64 = Ok r3 -> ParseUint s4 64 = Ok r4 ->
  0 <= userSpaceStart ->
  (r1 = 0 \/ userSpaceStart <= r1) -> (r2 = 0 \/ userSpaceStart <= r2) ->
  (r3 = 0 \/ userSpaceStart <= r3) -> (r4 = 0 \/ userSpaceStart <= r4) ->
  exists t,
    getUnitTimingData dbusConn unitName userSpaceStart = Val (Ok t) /\
    activating t = (if r1 =? 0 then 0 else r1 - userSpaceStart) /\
    activated t = (if r2 =? 0 then 0 else r2 - userSpaceStart) /\
    deactivating t = (if r3 =? 0 then 0 else r3 - userSpaceStart) /\
    deactivated t = (if r4 =? 0 then 0 else r4 - userSpaceStart) /\
    (r1 <> 0 -> r2 <> 0 -> r1 <= r2 -> runtime t = r2 - r1).
Proof.
  intros G1 G2 G3 G4 S1 S2 S3 S4 P1 P2 P3 P4 Hus C1 C2 C3 C4.
  eexists. split;
    [apply (getUnitTimingData_ok _ _ _ _ _ _ _ _ _ _ _ _ _ _ _
              G1 G2 G3 G4 S1 S2 S3 S4 P1 P2 P3 P4)|].
  cbn [activating activated deactivating deactivated runtime].
  pose proof (ParseUint_uint64 _ _ P1) as U1.
  pose proof (ParseUint_uint64 _ _ P2) as U2.
  pose proof (ParseUint_uint64 _ _ P3) as U3.
  pose proof (ParseUint_uint64 _ _ P4) as U4.
  rewrite !normalize_cases by assumption.
  repeat split.
  intros N1 N2 Hle.
  apply Z.eqb_neq in N1 as E1. apply Z.eqb_neq in N2 as E2. rewrite E1, E2.
  destruct C1 as [?|C1]; [contradiction|]. destruct C2 as [?|C2]; [contradiction|].
  unfold runDuration.
  assert (Hge : (r2 - userSpaceStart >=? r1 - userSpaceStart) = true)
    by (rewrite Z.geb_leb; apply Z.leb_le; lia).
  rewrite Hge. destruct U2 as [_ U2]. rewrite sub64_exact; lia.
Qed.

Lemma getUnitTimingData_exact_witness :
  exists t,
    getUnitTimingData connBooted "a.service" 500 = Val (Ok t) /\
    activating t = 1000 - 500 /\ activated t = 5000 - 500 /\
    deactivating t = 0 /\ deactivated t = 0 /\
    runtime t = 5000 - 1000.
Proof.
  destruct (getUnitTimingData_exact connBooted "a.service" 500
              "@t 1000" "@t 5000" "@t 0" "@t 0" "1000" "5000" "0" "0"
              1000 5000 0 0
              eq_refl eq_refl eq_refl eq_refl eq_refl eq_refl eq_refl eq_refl
              eq_refl eq_refl eq_refl eq_refl
              ltac:(lia) ltac:(right; lia) ltac:(right; lia)
              ltac:(left; reflexivity) ltac:(left; reflexivity))
    as (t & Ht & Ha & Hb & Hc & Hd & Hr).
  exists t. repeat split; try assumption.
  apply Hr; lia.
Defined.

Lemma getUnitTimingData_read_error_witness :
  getUnitTimingData connUserspaceDown "a.service" 500 =
    Val (Err (BusError "connection closed")).
Proof.
  apply (proj1 (getUnitTimingData_read_error connUserspaceDown "a.service" 500
                  (BusError "connection closed"))).
  reflexivity.
Defined.

(** ** What a pass hands to the accumulator *)

Lemma World_eq (w1 w2 : World) :
  managerProps w1 = managerProps w2 ->
  collectionDone w1 = collectionDone w2 ->
  acc w1 = acc w2 ->
  w1 = w2.
Proof. destruct w1, w2. cbn. intros -> -> ->. reflexivity. Qed.

Lemma appendAcc_nil a : appendAcc a [] [] = a.
Proof. destruct a. unfold appendAcc. cbn. rewrite !app_nil_r. reflexivity. Qed.

Lemma appendAcc_app a ms1 es1 ms2 es2 :
  appendAcc (appendAcc a ms1 es1) ms2 es2 = appendAcc a (ms1 ++ ms2) (es1 ++ es2).
Proof. unfold appendAcc. cbn. rewrite !app_assoc. reflexivity. Qed.

Section Loops.

Context {A : Type} (body : A -> M unit).

(** A loop returns exactly when no round of it panics, provided that
    whether a round panics does not depend on the state. *)
Lemma forEach_returns_iff (ok : A -> Prop) :
  (forall x w, fst (body x w) = Val tt <-> ok x) ->
  forall l w, fst (forEach body l w) = Val tt <-> Forall ok l.
Proof.
  intros Hok. induction l as [|x l IH]; intros w.
  - split; [constructor|reflexivity].
  - rewrite forEach_cons. specialize (Hok x w).
    destruct (body x w) as [[[]|p] w1]; cbn [fst] in *.
    + rewrite IH. split.
      * intros Hl. constructor; [apply Hok; reflexivity|exact Hl].
      * intros Hl. inversion Hl; assumption.
    + split; [discriminate|].
      intros Hl. inversion Hl as [|? ? Hx _]. apply Hok in Hx. discriminate.
Qed.

Variables (outM : A -> list Metric) (outE : A -> list error).
Hypothesis body_acc :
  forall x w, acc (snd (body x w)) = appendAcc (acc w) (outM x) (outE x).

(** A loop that returns has added the output of its rounds, in order. *)
Lemma forEach_acc : forall l w,
  fst (forEach body l w) = Val tt ->
  acc (snd (forEach body l w)) =
  appendAcc (acc w) (flat_map outM l) (flat_map outE l).
Proof.
  induction l as [|x l IH]; intros w Hret.
  - cbn. symmetry. apply appendAcc_nil.
  - rewrite forEach_cons in *. specialize (body_acc x w).
    destruct (body x w) as [[[]|p] w1]; cbn [fst snd] in *; [|discriminate].
    rewrite (IH w1 Hret), body_acc, appendAcc_app. reflexivity.
Qed.

(** Whether it returns or panics, a loop only appends. *)
Lemma forEach_extends : forall l w,
  exists ms es, acc (snd (forEach body l w)) = appendAcc (acc w) ms es.
Proof.
  induction l as [|x l IH]; intros w.
  - exists [], []. cbn. symmetry. apply appendAcc_nil.
  - rewrite forEach_cons. specialize (body_acc x w).
    destruct (body x w) as [[[]|p] w1]; cbn [snd] in *.
    + destruct (IH w1) as (ms & es & Hacc). rewrite Hacc, body_acc, appendAcc_app.
      eauto.
    + eauto.
Qed.

End Loops.

Lemma managerPropBody_acc dbusConn n w :
  acc (snd (managerPropBody dbusConn n w)) =
  appendAcc (acc w) (managerRecords dbusConn n) (managerErrors dbusConn n).
Proof.
  unfold managerRecords, managerErrors.
  destruct (getManagerProp dbusConn n) as [[v|e]|p] eqn:Hg.
  - rewrite (managerPropBody_ok _ _ _ _ Hg). cbn [snd].
    destruct (String.eqb v "" || String.eqb v "0");
      [cbn; symmetry; apply appendAcc_nil|].
    destruct (ParseUint v 64); unfold appendAcc; cbn; rewrite app_nil_r; reflexivity.
  - rewrite (managerPropBody_err _ _ _ _ Hg). cbn. symmetry. apply appendAcc_nil.
  - rewrite (managerPropBody_panic _ _ _ _ Hg). cbn. symmetry. apply appendAcc_nil.
Qed.

Lemma managerPropBody_returns_iff dbusConn n w :
  fst (managerPropBody dbusConn n w) = Val tt <->
  (forall p, getManagerProp dbusConn n <> Panic p).
Proof.
  split; [|apply managerPropBody_returns].
  intros Hret p Hp. rewrite (managerPropBody_panic _ _ _ _ Hp) in Hret. discriminate.
Qed.

Lemma unitBody_acc dbusConn us n w :
  acc (snd (unitBody dbusConn us n w)) =
  appendAcc (acc w) (unitRecords dbusConn us n) (unitErrors dbusConn us n).
Proof.
  unfold unitRecords, unitErrors, unitBody, bind, liftO.
  destruct (getUnitTimingData dbusConn n us) as [[t|e]|p].
  - destruct ((runtime t =? 0) && negb (HasSuffix n ".target"));
      [cbn; symmetry; apply appendAcc_nil|].
    unfold appendAcc. cbn. rewrite app_nil_r. reflexivity.
  - unfold appendAcc. cbn. rewrite app_nil_r. reflexivity.
  - cbn. symmetry. apply appendAcc_nil.
Qed.

Lemma unitBody_returns_iff dbusConn us n w :
  fst (unitBody dbusConn us n w) = Val tt <->
  (forall p, getUnitTimingData dbusConn n us <> Panic p).
Proof.
  unfold unitBody, bind, liftO.
  destruct (getUnitTimingData dbusConn n us) as [[t|e]|p].
  - split; [intros _ p; discriminate|intros _].
    destruct ((runtime t =? 0) && negb (HasSuffix n ".target")); reflexivity.
  - split; [intros _ p; discriminate|reflexivity].
  - split; [discriminate|]. intros H. exfalso. exact (H p eq_refl).
Qed.

(** The manager collector returns exactly when no visited property lacks
    its type token. *)
Lemma postAllManagerProps_returns_iff dbusConn order w :
  fst (postAllManagerProps dbusConn order w) = Val None <->
  Forall (fun n => forall p, getManagerProp dbusConn n <> Panic p) order.
Proof.
  rewrite <- (forEach_returns_iff (managerPropBody dbusConn) _
                (managerPropBody_returns_iff dbusConn) order w).
  rewrite postAllManagerProps_unfold.
  destruct (forEach (managerPropBody dbusConn) order w) as [[[]|p] w'];
    cbn [fst]; split; (reflexivity || discriminate).
Qed.

Lemma manager_pass_records dbusConn order w :
  Forall (fun n => forall p, getManagerProp dbusConn n <> Panic p) order ->
  fst (postAllManagerProps dbusConn order w) = Val None /\
  acc (snd (postAllManagerProps dbusConn order w)) =
    appendAcc (acc w)
      (flat_map (managerRecords dbusConn) order)
      (flat_map (managerErrors dbusConn) order).
Proof.
  intros Hok. split; [apply postAllManagerProps_returns_iff, Hok|].
  rewrite postAllManagerProps_snd.
  apply forEach_acc; [apply managerPropBody_acc|].
  apply (forEach_returns_iff (managerPropBody dbusConn) _
           (managerPropBody_returns_iff dbusConn)). exact Hok.
Qed.

(** X6: when no visited property lacks its type token, the manager
    collector returns nil and has added to the accumulator, in the order of
    the visit, one record for each property whose stripped value is neither
    empty nor "0" and decodes, and one error for each whose value does not
    decode; properties whose read failed add nothing. *)
Theorem manager_pass_output dbusConn order w :
  Forall (fun n => forall p, getManagerProp dbusConn n <> Panic p) order ->
  fst (postAllManagerProps dbusConn order w) = Val None /\
  acc (snd (postAllManagerProps dbusConn order w)) =
    appendAcc (acc w)
      (flat_map (managerRecords dbusConn) order)
      (flat_map (managerErrors dbusConn) order).
Proof.
  intros Hok. split; [apply postAllManagerProps_returns_iff, Hok|].
  rewrite postAllManagerProps_snd.
  apply forEach_acc; [apply managerPropBody_acc|].
  apply (forEach_returns_iff (managerPropBody dbusConn) _
           (managerPropBody_returns_iff dbusConn)). exact Hok.
Qed.

Lemma manager_pass_output_witness :
  acc (snd (postAllManagerProps connGarbled
              ["FinishTimestampMonotonic"; "UserspaceTimestampMonotonic"] World0)) =
  appendAcc (acc World0) [] [NumError "ParseUint" "abc" ErrSyntax].
Proof.
  apply (proj2 (manager_pass_output connGarbled
                  ["FinishTimestampMonotonic"; "UserspaceTimestampMonotonic"] World0
                  ltac:(repeat constructor; vm_compute; discriminate))).
Defined.

Lemma unit_pass_records dbusConn s w units userTs userStartTs :
  ListUnitsByPatterns dbusConn [] (Split (UnitPattern s) ","%char) = Ok units ->
  managerProps w !! "UserspaceTimestampMonotonic" = Some userTs ->
  ParseUint userTs 64 = Ok userStartTs ->
  Forall (fun n => forall p, getUnitTimingData dbusConn n userStartTs <> Panic p) units ->
  postAllUnitTimingData dbusConn s w =
    (Val None,
     {| managerProps := managerProps w;
        collectionDone := collectionDone w;
        acc := appendAcc (acc w)
                 (flat_map (unitRecords dbusConn userStartTs) units)
                 (flat_map (unitErrors dbusConn userStartTs) units) |}).
Proof.
  intros Hl Hu Hp Hok.
  pose proof (postAllUnitTimingData_managerProps dbusConn s w) as Hm.
  pose proof (postAllUnitTimingData_collectionDone dbusConn s w) as Hd.
  rewrite (postAllUnitTimingData_loop _ _ _ _ _ _ Hl Hu Hp) in *.
  unfold bind in *.
  pose proof (proj2 (forEach_returns_iff (unitBody dbusConn userStartTs) _
                       (unitBody_returns_iff dbusConn userStartTs) units w) Hok) as Hret.
  pose proof (forEach_acc (unitBody dbusConn userStartTs) _ _
                (unitBody_acc dbusConn userStartTs) units w Hret) as Hacc.
  destruct (forEach (unitBody dbusConn userStartTs) units w) as [[[]|p] w'];
    cbn [fst snd] in *; [|discriminate].
  unfold ret. f_equal. apply World_eq; assumption.
Qed.

(** X7: once the units are enumerated and the reference decodes, and no
    unit property lacks its type token, the unit collector returns nil,
    leaves [managerProps] and [collectionDone] as they were, and has added, in
    the order of the enumeration, the record of each unit that passes the
    suppression rule and the error of each unit whose read or decode failed:
    a failing unit does not stop the batch. *)
Theorem unit_pass_output dbusConn s w units userTs userStartTs :
  ListUnitsByPatterns dbusConn [] (Split (UnitPattern s) ","%char) = Ok units ->
  managerProps w !! "UserspaceTimestampMonotonic" = Some userTs ->
  ParseUint userTs 64 = Ok userStartTs ->
  Forall (fun n => forall p, getUnitTimingData dbusConn n userStartTs <> Panic p) units ->
  postAllUnitTimingData dbusConn s w =
    (Val None,
     {| managerProps := managerProps w;
        collectionDone := collectionDone w;
        acc := appendAcc (acc w)
                 (flat_map (unitRecords dbusConn userStartTs) units)
                 (flat_map (unitErrors dbusConn userStartTs) units) |}).
Proof.
  intros Hl Hu Hp Hok.
  pose proof (postAllUnitTimingData_managerProps dbusConn s w) as Hm.
  pose proof (postAllUnitTimingData_collectionDone dbusConn s w) as Hd.
  rewrite (postAllUnitTimingData_loop _ _ _ _ _ _ Hl Hu Hp) in *.
  unfold bind in *.
  pose proof (proj2 (forEach_returns_iff (unitBody dbusConn userStartTs) _
                       (unitBody_returns_iff dbusConn userStartTs) units w) Hok) as Hret.
  pose proof (forEach_acc (unitBody dbusConn userStartTs) _ _
                (unitBody_acc dbusConn userStartTs) units w Hret) as Hacc.
  destruct (forEach (unitBody dbusConn userStartTs) units w) as [[[]|p] w'];
    cbn [fst snd] in *; [|discriminate].
  unfold ret. f_equal. apply World_eq; assumption.
Qed.

Lemma unit_pass_output_witness :
  postAllUnitTimingData connUserspaceDown cfgDefault
      (storeProp "UserspaceTimestampMonotonic" "500" World0) =
    (Val None,
     {| managerProps := managerProps (storeProp "UserspaceTimestampMonotonic" "500" World0);
        collectionDone := false;
        acc := appendAcc (acc World0) [] [BusError "connection closed"] |}).
Proof.
  apply (unit_pass_output connUserspaceDown cfgDefault
           (storeProp "UserspaceTimestampMonotonic" "500" World0)
           ["a.service"] "500" 500 eq_refl eq_refl eq_refl).
  repeat constructor. vm_compute. discriminate.
Defined.

(** ** Running the manager collector again *)

(** A second run that visits no new key, started from a state whose map is
    the one the first run left, returns and leaves the map as it is. *)
Lemma manager_pass_fixpoint dbusConn order1 order2 w w' :
  fst (postAllManagerProps dbusConn order1 w) = Val None ->
  (forall n, n ∈ order2 -> n ∈ order1) ->
  managerProps w' = managerProps (snd (postAllManagerProps dbusConn order1 w)) ->
  fst (postAllManagerProps dbusConn order2 w') = Val None /\
  managerProps (snd (postAllManagerProps dbusConn order2 w')) = managerProps w'.
Proof.
  intros Hret Hsub Hw'.
  assert (Hret2 : fst (postAllManagerProps dbusConn order2 w') = Val None).
  { apply postAllManagerProps_returns_iff. apply Forall_forall. intros n Hn.
    apply postAllManagerProps_returns_iff in Hret.
    rewrite Forall_forall in Hret. apply Hret, Hsub, Hn. }
  split; [exact Hret2|]. apply map_eq. intros name.
  destruct (getManagerProp dbusConn name) as [[v|e]|p] eqn:Hg.
  - destruct (decide (name ∈ order2)) as [Hin|Hnin].
    + rewrite (proj1 (proj2 (manager_pass_entries dbusConn order2 w' name)) v Hg Hin Hret2).
      rewrite Hw'. symmetry.
      apply (proj1 (proj2 (manager_pass_entries dbusConn order1 w name)) v Hg
               (Hsub _ Hin) Hret).
    + rewrite postAllManagerProps_snd. apply manager_loop_keeps. left. exact Hnin.
  - rewrite postAllManagerProps_snd. apply manager_loop_keeps. right.
    intros v. rewrite Hg. discriminate.
  - rewrite postAllManagerProps_snd. apply manager_loop_keeps. right.
    intros v. rewrite Hg. discriminate.
Qed.

Lemma range_of_elem_inv m order n : range_of m order -> n ∈ dom m -> n ∈ order.
Proof.
  unfold range_of. intros Hp Hin. rewrite Hp. apply elem_of_elements. exact Hin.
Qed.

(** X8: running the manager collector a second time against the same bus
    answers, in whatever order the keys are visited, returns again and leaves
    [managerProps] exactly as the first run left it. *)
Theorem manager_pass_idempotent dbusConn order1 order2 w :
  range_of (managerProps w) order1 ->
  range_of (managerProps (snd (postAllManagerProps dbusConn order1 w))) order2 ->
  fst (postAllManagerProps dbusConn order1 w) = Val None ->
  fst (postAllManagerProps dbusConn order2
         (snd (postAllManagerProps dbusConn order1 w))) = Val None /\
  managerProps (snd (postAllManagerProps dbusConn order2
                       (snd (postAllManagerProps dbusConn order1 w)))) =
  managerProps (snd (postAllManagerProps dbusConn order1 w)).
Proof.
  intros Hr1 Hr2 Hret.
  apply (manager_pass_fixpoint dbusConn order1 order2 w); [exact Hret| |reflexivity].
  intros n Hn. apply (range_of_elem_inv _ _ _ Hr1).
  rewrite <- (postAllManagerProps_dom dbusConn order1 w Hr1).
  apply (range_of_elem _ _ _ Hr2 Hn).
Qed.

Lemma range_of_reverse m order : range_of m order -> range_of m (reverse order).
Proof. unfold range_of. intros <-. apply reverse_Permutation. Qed.

Lemma manager_pass_idempotent_witness :
  managerProps (snd (postAllManagerProps connBooted (reverse managerPropNames)
                       (snd (postAllManagerProps connBooted managerPropNames World0)))) =
  managerProps (snd (postAllManagerProps connBooted managerPropNames World0)).
Proof.
  apply (manager_pass_idempotent connBooted managerPropNames (reverse managerPropNames) World0).
  - apply range_of_managerProps0.
  - apply range_of_reverse. unfold range_of.
    rewrite (postAllManagerProps_dom connBooted managerPropNames World0 range_of_managerProps0).
    apply range_of_managerProps0.
  - reflexivity.
Defined.

(** ** Gather: ticks that do nothing, fatal errors, successful passes *)

(** X9: when the boot check cannot connect, cannot read
    [FinishTimestampMonotonic], cannot parse it as a signed 32-bit integer, or
    reads zero, [Gather] returns nil and leaves the accumulator,
    [managerProps] and [collectionDone] untouched, in either mode. *)
Theorem Gather_not_ready s t w :
  (forall e, readinessConn t = Err e -> Gather s t w = (Val None, w)) /\
  (forall dbusConn e,
     readinessConn t = Ok dbusConn ->
     GetManagerProperty dbusConn "FinishTimestampMonotonic" = Err e ->
     Gather s t w = (Val None, w)) /\
  (forall dbusConn prop v e,
     readinessConn t = Ok dbusConn ->
     GetManagerProperty dbusConn "FinishTimestampMonotonic" = Ok prop ->
     stripType prop = Val v ->
     ParseInt v 32 = Err e ->
     Gather s t w = (Val None, w)) /\
  (forall dbusConn prop v,
     readinessConn t = Ok dbusConn ->
     GetManagerProperty dbusConn "FinishTimestampMonotonic" = Ok prop ->
     stripType prop = Val v ->
     ParseInt v 32 = Ok 0 ->
     Gather s t w = (Val None, w)).
Proof.
  assert (Hfalse : bootIsFinished (readinessConn t) = Val false ->
                   Gather s t w = (Val None, w)).
  { intros Hb. rewrite Gather_unfold, Hb. reflexivity. }
  repeat split.
  - intros e He. apply Hfalse. rewrite He. reflexivity.
  - intros dbusConn e Hc Hr. apply Hfalse. rewrite Hc.
    unfold bootIsFinished, getManagerProp. rewrite Hr. reflexivity.
  - intros dbusConn prop v e Hc Hr Hs Hp. apply Hfalse. rewrite Hc.
    unfold bootIsFinished, getManagerProp. rewrite Hr, Hs. cbn [bindO].
    rewrite Hp. reflexivity.
  - intros dbusConn prop v Hc Hr Hs Hp. apply Hfalse. rewrite Hc.
    unfold bootIsFinished, getManagerProp. rewrite Hr, Hs. cbn [bindO].
    rewrite Hp. reflexivity.
Qed.

Lemma Gather_not_ready_witness :
  Gather cfgPeriodic tickNotReady World0 = (Val None, World0).
Proof.
  apply (proj2 (proj2 (proj2 (Gather_not_ready cfgPeriodic tickNotReady World0)))
           connNotReady "@t 0" "0"); reflexivity.
Defined.

Lemma collect_pass s t w dbusConn :
  passConn t = Ok dbusConn ->
  collect s t w =
  match postAllManagerProps dbusConn (rangeOrder t) w with
  | (Panic p, w1) => (Panic p, w1)
  | (Val (Some e), w1) => (Val (Some e), pushError e w1)
  | (Val None, w1) =>
      match postAllUnitTimingData dbusConn s w1 with
      | (Panic p, w2) => (Panic p, w2)
      | (Val (Some e), w2) => (Val (Some e), pushError e w2)
      | (Val None, w2) =>
          (Val None, {| managerProps := managerProps w2;
                        collectionDone := true;
                        acc := acc w2 |})
      end
  end.
Proof.
  intros Hc. unfold collect. rewrite Hc. unfold bind at 1.
  destruct (postAllManagerProps dbusConn (rangeOrder t) w) as [[[e|]|p] w1];
    try reflexivity.
  unfold bind at 1.
  destruct (postAllUnitTimingData dbusConn s w1) as [[[e|]|p] w2]; reflexivity.
Qed.

(** X10: how [Gather] treats the failures that end a pass.  A failed
    connection is returned without being reported to the accumulator and
    without any change of state; a failed enumeration of the units and a
    reference that does not decode are each reported to the accumulator twice,
    once by the unit collector and once by [Gather]; a missing reference key
    is reported once.  In every case no unit record is added. *)
Theorem Gather_fatal_errors s t w :
  bootIsFinished (readinessConn t) = Val true ->
  negb (Periodic s) && collectionDone w = false ->
  (forall e, passConn t = Err e -> Gather s t w = (Val (Some e), w)) /\
  (forall dbusConn wm,
     passConn t = Ok dbusConn ->
     postAllManagerProps dbusConn (rangeOrder t) w = (Val None, wm) ->
     (forall e,
        ListUnitsByPatterns dbusConn [] (Split (UnitPattern s) ","%char) = Err e ->
        Gather s t w = (Val (Some e), pushError e (pushError e wm))) /\
     (forall units userTs e,
        ListUnitsByPatterns dbusConn [] (Split (UnitPattern s) ","%char) = Ok units ->
        managerProps wm !! "UserspaceTimestampMonotonic" = Some userTs ->
        ParseUint userTs 64 = Err e ->
        Gather s t w = (Val (Some e), pushError e (pushError e wm))) /\
     (forall units,
        ListUnitsByPatterns dbusConn [] (Split (UnitPattern s) ","%char) = Ok units ->
        managerProps wm !! "UserspaceTimestampMonotonic" = None ->
        Gather s t w =
          (Val (Some errUserspaceNotFound), pushError errUserspaceNotFound wm))).
Proof.
  intros Hb Hd. split.
  - intros e Hc. rewrite Gather_unfold, Hb, Hd. unfold collect. rewrite Hc. reflexivity.
  - intros dbusConn wm Hc Hm.
    assert (Hg : forall e w2, postAllUnitTimingData dbusConn s wm = (Val (Some e), w2) ->
              Gather s t w = (Val (Some e), pushError e w2)).
    { intros e w2 Hu. rewrite (Gather_pass s t w dbusConn Hb Hd Hc), Hm, Hu. reflexivity. }
    repeat split.
    + intros e Hl. apply Hg. unfold postAllUnitTimingData. rewrite Hl. reflexivity.
    + intros units userTs e Hl Hu Hp. apply Hg.
      unfold postAllUnitTimingData. rewrite Hl.
      unfold bind, getManagerProps. rewrite Hu, Hp. reflexivity.
    + intros units Hl Hu. apply Hg.
      unfold postAllUnitTimingData. rewrite Hl.
      unfold bind, getManagerProps. rewrite Hu. reflexivity.
Qed.

Lemma Gather_fatal_errors_witness :
  Gather cfgDefault tickNoUnits World0 =
    (Val (Some (BusError "enumeration failed")),
     pushError (BusError "enumeration failed")
       (pushError (BusError "enumeration failed")
          (snd (postAllManagerProps connNoUnits managerPropNames World0)))).
Proof.
  apply (proj1 (proj2 (Gather_fatal_errors cfgDefault tickNoUnits World0 eq_refl eq_refl)
                  connNoUnits
                  (snd (postAllManagerProps connNoUnits managerPropNames World0))
                  eq_refl eq_refl)).
  reflexivity.
Defined.

Lemma Gather_pass_success s t w dbusConn units userTs userStartTs :
  bootIsFinished (readinessConn t) = Val true ->
  negb (Periodic s) && collectionDone w = false ->
  passConn t = Ok dbusConn ->
  Forall (fun n => forall p, getManagerProp dbusConn n <> Panic p) (rangeOrder t) ->
  ListUnitsByPatterns dbusConn [] (Split (UnitPattern s) ","%char) = Ok units ->
  managerProps (snd (postAllManagerProps dbusConn (rangeOrder t) w))
    !! "UserspaceTimestampMonotonic" = Some userTs ->
  ParseUint userTs 64 = Ok userStartTs ->
  Forall (fun n => forall p, getUnitTimingData dbusConn n userStartTs <> Panic p) units ->
  Gather s t w =
    (Val None,
     {| managerProps := managerProps (snd (postAllManagerProps dbusConn (rangeOrder t) w));
        collectionDone := true;
        acc := appendAcc (acc w)
                 (flat_map (managerRecords dbusConn) (rangeOrder t) ++
                  flat_map (unitRecords dbusConn userStartTs) units)
                 (flat_map (managerErrors dbusConn) (rangeOrder t) ++
                  flat_map (unitErrors dbusConn userStartTs) units) |}).
Proof.
  intros Hb Hd Hc Hmok Hl Hu Hp Huok.
  rewrite (Gather_pass s t w dbusConn Hb Hd Hc).
  destruct (manager_pass_records dbusConn (rangeOrder t) w Hmok) as [Hret Hacc].
  destruct (postAllManagerProps dbusConn (rangeOrder t) w) as [[[e|]|p] wm];
    cbn [fst snd] in *; try discriminate.
  rewrite (unit_pass_records dbusConn s wm units userTs userStartTs Hl Hu Hp Huok).
  cbn [managerProps acc]. rewrite Hacc, appendAcc_app. reflexivity.
Qed.

(** X11: a pass in which the connection is made, no property lacks its
    type token, the units are enumerated and the reference decodes returns nil,
    sets [collectionDone], and has added to the accumulator the manager records
    followed by the unit records, and the manager errors followed by the unit
    errors; failures of single properties or single units do not make the pass
    fail. *)
Theorem Gather_success s t w dbusConn units userTs userStartTs :
  bootIsFinished (readinessConn t) = Val true ->
  negb (Periodic s) && collectionDone w = false ->
  passConn t = Ok dbusConn ->
  Forall (fun n => forall p, getManagerProp dbusConn n <> Panic p) (rangeOrder t) ->
  ListUnitsByPatterns dbusConn [] (Split (UnitPattern s) ","%char) = Ok units ->
  managerProps (snd (postAllManagerProps dbusConn (rangeOrder t) w))
    !! "UserspaceTimestampMonotonic" = Some userTs ->
  ParseUint userTs 64 = Ok userStartTs ->
  Forall (fun n => forall p, getUnitTimingData dbusConn n userStartTs <> Panic p) units ->
  Gather s t w =
    (Val None,
     {| managerProps := managerProps (snd (postAllManagerProps dbusConn (rangeOrder t) w));
        collectionDone := true;
        acc := appendAcc (acc w)
                 (flat_map (managerRecords dbusConn) (rangeOrder t) ++
                  flat_map (unitRecords dbusConn userStartTs) units)
                 (flat_map (managerErrors dbusConn) (rangeOrder t) ++
                  flat_map (unitErrors dbusConn userStartTs) units) |}).
Proof.
  intros Hb Hd Hc Hmok Hl Hu Hp Huok.
  rewrite (Gather_pass s t w dbusConn Hb Hd Hc).
  destruct (manager_pass_records dbusConn (rangeOrder t) w Hmok) as [Hret Hacc].
  destruct (postAllManagerProps dbusConn (rangeOrder t) w) as [[[e|]|p] wm];
    cbn [fst snd] in *; try discriminate.
  rewrite (unit_pass_records dbusConn s wm units userTs userStartTs Hl Hu Hp Huok).
  cbn [managerProps acc]. rewrite Hacc, appendAcc_app. reflexivity.
Qed.

Lemma Gather_success_witness :
  Gather cfgDefault tickUnitsDown World0 =
    (Val None,
     {| managerProps :=
          managerProps (snd (postAllManagerProps connUserspaceDown managerPropNames World0));
        collectionDone := true;
        acc := {| metrics := [managerMetric "UserspaceTimestampMonotonic" 500;
                              managerMetric "FinishTimestampMonotonic" 900];
                  errors := [BusError "connection closed"] |} |}).
Proof.
  apply (Gather_success cfgDefault tickUnitsDown World0 connUserspaceDown
           ["a.service"] "500" 500 eq_refl eq_refl eq_refl).
  - apply Forall_forall. intros n _ p. unfold getManagerProp, connUserspaceDown.
    cbn [GetManagerProperty]. unfold managerProps_booted.
    repeat match goal with |- context [if ?b then _ else _] => destruct b end;
      cbn; discriminate.
  - reflexivity.
  - reflexivity.
  - reflexivity.
  - repeat constructor. vm_compute. discriminate.
Defined.

(** ** Gather only appends, and the errors it can return *)

Lemma pushError_acc e w : acc (pushError e w) = appendAcc (acc w) [] [e].
Proof. unfold appendAcc. cbn. rewrite app_nil_r. reflexivity. Qed.

Lemma postAllUnitTimingData_extends dbusConn s w :
  exists ms es,
    acc (snd (postAllUnitTimingData dbusConn s w)) = appendAcc (acc w) ms es.
Proof.
  unfold postAllUnitTimingData.
  destruct (ListUnitsByPatterns dbusConn [] (Split (UnitPattern s) ","%char))
    as [units|e]; [|exists [], [e]; apply pushError_acc].
  unfold bind at 1. unfold getManagerProps.
  destruct (managerProps w !! "UserspaceTimestampMonotonic") as [userTs|];
    [|exists [], []; symmetry; apply appendAcc_nil].
  destruct (ParseUint userTs 64) as [us|e]; [|exists [], [e]; apply pushError_acc].
  unfold bind.
  pose proof (forEach_extends (unitBody dbusConn us) _ _ (unitBody_acc dbusConn us)
                units w) as Hf.
  destruct (forEach (unitBody dbusConn us) units w) as [[[]|p] w']; exact Hf.
Qed.

(** X12: whatever the bus answers and however the call ends (nil, an
    error or a panic), [Gather] only appends to the accumulator: the records
    and errors that were there before the call are still there, in the same
    order, at the front. *)
Theorem Gather_append_only s t w :
  exists ms es, acc (snd (Gather s t w)) = appendAcc (acc w) ms es.
Proof.
  assert (Hsame : exists ms es, acc w = appendAcc (acc w) ms es)
    by (exists [], []; symmetry; apply appendAcc_nil).
  rewrite Gather_unfold.
  destruct (bootIsFinished (readinessConn t)) as [[|]|p]; try exact Hsame.
  destruct (negb (Periodic s) && collectionDone w); [exact Hsame|].
  destruct (passConn t) as [dbusConn|e] eqn:Hc;
    [|unfold collect; rewrite Hc; exact Hsame].
  rewrite (collect_pass s t w dbusConn Hc).
  pose proof (forEach_extends (managerPropBody dbusConn) _ _
                (managerPropBody_acc dbusConn) (rangeOrder t) w) as (ms1 & es1 & H1).
  rewrite <- postAllManagerProps_snd in H1.
  destruct (postAllManagerProps dbusConn (rangeOrder t) w) as [[[e|]|p] w1];
    cbn [snd] in *.
  - exists ms1, (es1 ++ [e])%list.
    rewrite pushError_acc, H1, appendAcc_app, app_nil_r. reflexivity.
  - destruct (postAllUnitTimingData_extends dbusConn s w1) as (ms2 & es2 & H2).
    destruct (postAllUnitTimingData dbusConn s w1) as [[[e|]|p] w2]; cbn [snd] in *.
    + exists (ms1 ++ ms2)%list, (es1 ++ es2 ++ [e])%list.
      rewrite pushError_acc, H2, H1, !appendAcc_app, app_nil_r. reflexivity.
    + exists (ms1 ++ ms2)%list, (es1 ++ es2)%list. cbn [acc].
      rewrite H2, H1. apply appendAcc_app.
    + exists (ms1 ++ ms2)%list, (es1 ++ es2)%list. rewrite H2, H1. apply appendAcc_app.
  - eauto.
Qed.

Lemma postAllUnitTimingData_error_inv dbusConn s w e :
  fst (postAllUnitTimingData dbusConn s w) = Val (Some e) ->
  ListUnitsByPatterns dbusConn [] (Split (UnitPattern s) ","%char) = Err e \/
  (managerProps w !! "UserspaceTimestampMonotonic" = None /\ e = errUserspaceNotFound) \/
  (exists userTs, managerProps w !! "UserspaceTimestampMonotonic" = Some userTs /\
                  ParseUint userTs 64 = Err e).
Proof.
  unfold postAllUnitTimingData.
  destruct (ListUnitsByPatterns dbusConn [] (Split (UnitPattern s) ","%char))
    as [units|e'].
  - unfold bind at 1. unfold getManagerProps.
    destruct (managerProps w !! "UserspaceTimestampMonotonic") as [userTs|].
    + destruct (ParseUint userTs 64) as [us|e'] eqn:Hp.
      * intros H. exfalso. exact (forEach_outcome _ _ _ _ H).
      * cbn. intros H. injection H as ->. right. right. eauto.
    + cbn. intros H. injection H as <-. right. left. split; reflexivity.
  - cbn. intros H. injection H as ->. left. reflexivity.
Qed.

(** X13: the only errors [Gather] ever returns are the error of the
    connection made for the pass, the error of the enumeration of the units,
    the "not found" error of a missing reference key, and the parse error of a
    reference that does not decode; a failure of a single manager property or
    of a single unit is never returned. *)
Theorem Gather_error_sources s t w e :
  fst (Gather s t w) = Val (Some e) ->
  passConn t = Err e \/
  exists dbusConn,
    passConn t = Ok dbusConn /\
    (ListUnitsByPatterns dbusConn [] (Split (UnitPattern s) ","%char) = Err e \/
     (managerProps (snd (postAllManagerProps dbusConn (rangeOrder t) w))
        !! "UserspaceTimestampMonotonic" = None /\ e = errUserspaceNotFound) \/
     (exists userTs,
        managerProps (snd (postAllManagerProps dbusConn (rangeOrder t) w))
          !! "UserspaceTimestampMonotonic" = Some userTs /\
        ParseUint userTs 64 = Err e)).
Proof.
  rewrite Gather_unfold.
  destruct (bootIsFinished (readinessConn t)) as [[|]|p]; try discriminate.
  destruct (negb (Periodic s) && collectionDone w); [discriminate|].
  destruct (passConn t) as [dbusConn|e'] eqn:Hc.
  - rewrite (collect_pass s t w dbusConn Hc). intros H. right. exists dbusConn.
    split; [reflexivity|].
    pose proof (postAllManagerProps_unfold dbusConn (rangeOrder t) w) as Hm.
    destruct (postAllManagerProps dbusConn (rangeOrder t) w) as [[[e1|]|p] w1];
      cbn [fst snd] in *.
    + destruct (forEach (managerPropBody dbusConn) (rangeOrder t) w) as [[[]|?] ?];
        discriminate.
    + apply postAllUnitTimingData_error_inv.
      destruct (postAllUnitTimingData dbusConn s w1) as [[[e2|]|p] w2];
        cbn [fst] in *; try discriminate. exact H.
    + discriminate.
  - unfold collect. rewrite Hc. cbn. intros H. injection H as ->. left. reflexivity.
Qed.

Lemma Gather_error_sources_witness :
  passConn tickNoUnits = Err (BusError "enumeration failed") \/
  exists dbusConn,
    passConn tickNoUnits = Ok dbusConn /\
    (ListUnitsByPatterns dbusConn [] (Split (UnitPattern cfgDefault) ","%char) =
       Err (BusError "enumeration failed") \/
     (managerProps (snd (postAllManagerProps dbusConn (rangeOrder tickNoUnits) World0))
        !! "UserspaceTimestampMonotonic" = None /\
      BusError "enumeration failed" = errUserspaceNotFound) \/
     (exists userTs,
        managerProps (snd (postAllManagerProps dbusConn (rangeOrder tickNoUnits) World0))
          !! "UserspaceTimestampMonotonic" = Some userTs /\
        ParseUint userTs 64 = Err (BusError "enumeration failed"))).
Proof.
  apply (Gather_error_sources cfgDefault tickNoUnits World0 (BusError "enumeration failed")).
  reflexivity.
Defined.

(** ** Periodic mode *)

Lemma postAllUnitTimingData_nil_inv dbusConn s w :
  fst (postAllUnitTimingData dbusConn s w) = Val None ->
  exists units userTs userStartTs,
    ListUnitsByPatterns dbusConn [] (Split (UnitPattern s) ","%char) = Ok units /\
    managerProps w !! "UserspaceTimestampMonotonic" = Some userTs /\
    ParseUint userTs 64 = Ok userStartTs /\
    Forall (fun n => forall p, getUnitTimingData dbusConn n userStartTs <> Panic p) units.
Proof.
  unfold postAllUnitTimingData.
  destruct (ListUnitsByPatterns dbusConn [] (Split (UnitPattern s) ","%char))
    as [units|e]; [|discriminate].
  unfold bind at 1. unfold getManagerProps.
  destruct (managerProps w !! "UserspaceTimestampMonotonic") as [userTs|];
    [|discriminate].
  destruct (ParseUint userTs 64) as [us|e] eqn:Hp; [|discriminate].
  intros H. exists units, userTs, us. repeat split; try reflexivity; try exact Hp.
  apply (forEach_returns_iff (unitBody dbusConn us) _
           (unitBody_returns_iff dbusConn us) units w).
  unfold bind in H.
  destruct (forEach (unitBody dbusConn us) units w) as [[[]|p] w'];
    [reflexivity|discriminate].
Qed.

(** X14: in periodic mode, when a call of [Gather] returns nil, the next
    call against the same bus answers, in whatever order [range] visits the
    keys this time, returns nil again and leaves [managerProps] as the first
    call left it.  Both calls append the manager records followed by the same
    unit records, and the manager errors followed by the same unit errors; the
    manager records and errors of the second call are those of the first, in
    the order of the second visit, hence a permutation of them, and the very
    same lists when the keys are visited in the same order. *)
Theorem periodic_repeats s t1 t2 w :
  Periodic s = true ->
  readinessConn t2 = readinessConn t1 ->
  passConn t2 = passConn t1 ->
  range_of (managerProps w) (rangeOrder t1) ->
  range_of (managerProps (snd (Gather s t1 w))) (rangeOrder t2) ->
  fst (Gather s t1 w) = Val None ->
  exists mrec1 mrec2 urec merr1 merr2 uerr,
    acc (snd (Gather s t1 w)) =
      appendAcc (acc w) (mrec1 ++ urec) (merr1 ++ uerr) /\
    fst (Gather s t2 (snd (Gather s t1 w))) = Val None /\
    acc (snd (Gather s t2 (snd (Gather s t1 w)))) =
      appendAcc (acc (snd (Gather s t1 w))) (mrec2 ++ urec) (merr2 ++ uerr) /\
    mrec2 ≡ₚ mrec1 /\ merr2 ≡ₚ merr1 /\
    (rangeOrder t2 = rangeOrder t1 -> mrec2 = mrec1 /\ merr2 = merr1) /\
    managerProps (snd (Gather s t2 (snd (Gather s t1 w)))) =
      managerProps (snd (Gather s t1 w)).
Proof.
  intros Hper Hrc Hpc Hr1 Hr2 Hret.
  destruct (bootIsFinished (readinessConn t1)) as [[|]|p] eqn:Hb.
  - assert (Hb2 : bootIsFinished (readinessConn t2) = Val true)
      by (rewrite Hrc; exact Hb).
    assert (Hd : forall w0, negb (Periodic s) && collectionDone w0 = false)
      by (intros w0; rewrite Hper; reflexivity).
    destruct (passConn t1) as [dbusConn|e] eqn:Hc.
    + rewrite (Gather_pass s t1 w dbusConn Hb (Hd w) Hc) in Hret.
      destruct (postAllManagerProps dbusConn (rangeOrder t1) w) as [[[e|]|p] wm] eqn:Hm;
        cbn [fst] in Hret; try discriminate.
      assert (Hmret : fst (postAllManagerProps dbusConn (rangeOrder t1) w) = Val None)
        by (rewrite Hm; reflexivity).
      assert (Hwm : snd (postAllManagerProps dbusConn (rangeOrder t1) w) = wm)
        by (rewrite Hm; reflexivity).
      assert (Huret : fst (postAllUnitTimingData dbusConn s wm) = Val None).
      { destruct (postAllUnitTimingData dbusConn s wm) as [[[e|]|p] w2];
          cbn [fst] in *; try discriminate. reflexivity. }
      apply postAllUnitTimingData_nil_inv in Huret
        as (units & userTs & us & Hl & Hu & Hp & Huok).
      pose proof (proj1 (postAllManagerProps_returns_iff _ _ _) Hmret) as Hmok.
      rewrite <- Hwm in Hu.
      pose proof (Gather_pass_success s t1 w dbusConn units userTs us
                    Hb (Hd w) Hc Hmok Hl Hu Hp Huok) as H1.
      rewrite H1 in *. cbn [snd] in *.
      match goal with |- context [Gather s t2 ?w1] => set (w1' := w1) in * end.
      assert (Hperm : rangeOrder t2 ≡ₚ rangeOrder t1).
      { unfold range_of in Hr1, Hr2. rewrite Hr1, Hr2. subst w1'. cbn [managerProps].
        rewrite (postAllManagerProps_dom dbusConn (rangeOrder t1) w Hr1). reflexivity. }
      assert (Hmok2 : Forall (fun n => forall p, getManagerProp dbusConn n <> Panic p)
                        (rangeOrder t2))
        by (rewrite Hperm; exact Hmok).
      assert (Hsub : forall n, n ∈ rangeOrder t2 -> n ∈ rangeOrder t1)
        by (intros n Hn; rewrite <- Hperm; exact Hn).
      destruct (manager_pass_fixpoint dbusConn (rangeOrder t1) (rangeOrder t2) w w1'
                  Hmret Hsub eq_refl)
        as [_ Hfix].
      assert (Hu' : managerProps (snd (postAllManagerProps dbusConn (rangeOrder t2) w1'))
                      !! "UserspaceTimestampMonotonic" = Some userTs)
        by (rewrite Hfix; exact Hu).
      assert (Hc2 : passConn t2 = Ok dbusConn) by exact Hpc.
      pose proof (Gather_pass_success s t2 w1' dbusConn units userTs us
                    Hb2 (Hd w1') Hc2 Hmok2 Hl Hu' Hp Huok) as H2.
      rewrite H2. cbn [fst snd acc managerProps].
      exists (flat_map (managerRecords dbusConn) (rangeOrder t1)),
             (flat_map (managerRecords dbusConn) (rangeOrder t2)),
             (flat_map (unitRecords dbusConn us) units),
             (flat_map (managerErrors dbusConn) (rangeOrder t1)),
             (flat_map (managerErrors dbusConn) (rangeOrder t2)),
             (flat_map (unitErrors dbusConn us) units).
      split; [reflexivity|]. split; [reflexivity|]. split; [reflexivity|].
      split; [rewrite Hperm; reflexivity|].
      split; [rewrite Hperm; reflexivity|].
      split; [intros ->; split; reflexivity|exact Hfix].
    + rewrite Gather_unfold, Hb, (Hd w) in Hret. unfold collect in Hret.
      rewrite Hc in Hret. discriminate.
  - assert (Hw : Gather s t1 w = (Val None, w))
      by (rewrite Gather_unfold, Hb; reflexivity).
    assert (Hw2 : Gather s t2 w = (Val None, w))
      by (rewrite Gather_unfold, Hrc, Hb; reflexivity).
    rewrite Hw. cbn [snd]. rewrite Hw2. cbn [fst snd].
    exists [], [], [], [], [], [].
    split; [symmetry; apply appendAcc_nil|]. split; [reflexivity|].
    split; [symmetry; apply appendAcc_nil|]. repeat split; reflexivity.
  - rewrite Gather_unfold, Hb in Hret. discriminate.
Qed.

Lemma range_of_after_first_tick :
  range_of (managerProps (snd (Gather cfgPeriodic tickBooted World0)))
    (reverse managerPropNames).
Proof.
  apply range_of_reverse. unfold range_of.
  rewrite (reachable_dom (snd (Gather cfgPeriodic tickBooted World0))).
  - rewrite <- dom_managerProps0. apply range_of_managerProps0.
  - eapply reachable_tick; [apply (reachable_start {| metrics := []; errors := [] |})|].
    apply (tick_step_intro cfgPeriodic tickBooted World0). apply range_of_managerProps0.
Qed.

Lemma periodic_repeats_witness :
  exists mrec1 mrec2 urec merr1 merr2 uerr,
    acc (snd (Gather cfgPeriodic tickBooted World0)) =
      appendAcc (acc World0) (mrec1 ++ urec) (merr1 ++ uerr) /\
    fst (Gather cfgPeriodic tickBootedReversed
           (snd (Gather cfgPeriodic tickBooted World0))) = Val None /\
    acc (snd (Gather cfgPeriodic tickBootedReversed
                (snd (Gather cfgPeriodic tickBooted World0)))) =
      appendAcc (acc (snd (Gather cfgPeriodic tickBooted World0)))
        (mrec2 ++ urec) (merr2 ++ uerr) /\
    mrec2 ≡ₚ mrec1 /\ merr2 ≡ₚ merr1 /\
    (rangeOrder tickBootedReversed = rangeOrder tickBooted ->
     mrec2 = mrec1 /\ merr2 = merr1) /\
    managerProps (snd (Gather cfgPeriodic tickBootedReversed
                         (snd (Gather cfgPeriodic tickBooted World0)))) =
      managerProps (snd (Gather cfgPeriodic tickBooted World0)).
Proof.
  apply (periodic_repeats cfgPeriodic tickBooted tickBootedReversed World0).
  - reflexivity.
  - reflexivity.
  - reflexivity.
  - apply range_of_managerProps0.
  - apply range_of_after_first_tick.
  - reflexivity.
Defined.

(** With the keys visited in reverse the second call emits the manager
    records in the other order. *)
Example periodic_repeats_reversed :
  metrics (acc (snd (Gather cfgPeriodic tickBooted World0))) =
    [managerMetric "UserspaceTimestampMonotonic" 500;
     managerMetric "FinishTimestampMonotonic" 900;
     unitMetric "a.service"
       {| activating := 500; activated := 4500; deactivating := 0;
          deactivated := 0; runtime := 4000 |};
     unitMetric "b.target"
       {| activating := 500; activated := 4500; deactivating := 0;
          deactivated := 0; runtime := 4000 |}] /\
  drop 4 (metrics (acc (snd (Gather cfgPeriodic tickBootedReversed
                               (snd (Gather cfgPeriodic tickBooted World0)))))) =
    [managerMetric "FinishTimestampMonotonic" 900;
     managerMetric "UserspaceTimestampMonotonic" 500;
     unitMetric "a.service"
       {| activating := 500; activated := 4500; deactivating := 0;
          deactivated := 0; runtime := 4000 |};
     unitMetric "b.target"
       {| activating := 500; activated := 4500; deactivating := 0;
          deactivated := 0; runtime := 4000 |}].
Proof. split; reflexivity. Qed.

(** ** The suffix that exempts a unit from suppression *)

Lemma substring_0_length s : substring 0 (String.length s) s = s.
Proof.
  induction s as [|c s IH]; [reflexivity|].
  change (String c (substring 0 (String.length s) s) = String c s).
  f_equal. exact IH.
Qed.

Lemma substring_skip p s m :
  substring (String.length p) m (p ++ s) = substring 0 m s.
Proof.
  induction p as [|c p IH]; [reflexivity|].
  change (substring (String.length p) m (p ++ s) = substring 0 m s). exact IH.
Qed.

Lemma string_length_app p s :
  String.length (p ++ s) = (String.length p + String.length s)%nat.
Proof.
  induction p as [|c p IH]; [reflexivity|].
  change (S (String.length (p ++ s)) = S (String.length p + String.length s)).
  f_equal. exact IH.
Qed.

Lemma substring_split s : forall n,
  (n <= String.length s)%nat ->
  s = (substring 0 n s ++ substring n (String.length s - n) s)%string.
Proof.
  induction s as [|c s IH]; intros n Hn.
  - cbn in Hn. assert (n = 0%nat) as -> by lia. reflexivity.
  - destruct n as [|n].
    + change (String c s = String c (substring 0 (String.length s) s)).
      rewrite substring_0_length. reflexivity.
    + change (String c s =
              String c (substring 0 n s ++ substring n (String.length s - n) s)).
      f_equal. apply IH.
      change (S n <= S (String.length s))%nat in Hn. lia.
Qed.

Lemma HasSuffix_app p suffix : HasSuffix (p ++ suffix) suffix = true.
Proof.
  unfold HasSuffix. rewrite string_length_app. apply andb_true_iff. split.
  - apply Nat.leb_le. lia.
  - replace (String.length p + String.length suffix - String.length suffix)%nat
      with (String.length p) by lia.
    rewrite substring_skip, substring_0_length. apply String.eqb_refl.
Qed.

Lemma HasSuffix_inv s suffix :
  HasSuffix s suffix = true -> exists p, s = (p ++ suffix)%string.
Proof.
  unfold HasSuffix. intros H. apply andb_true_iff in H as [Hlen Heq].
  apply Nat.leb_le in Hlen. apply String.eqb_eq in Heq.
  exists (substring 0 (String.length s - String.length suffix) s).
  pose proof (substring_split s (String.length s - String.length suffix)
                ltac:(lia)) as Hsplit.
  replace (String.length s - (String.length s - String.length suffix))%nat
    with (String.length suffix) in Hsplit by lia.
  rewrite Heq in Hsplit. exact Hsplit.
Qed.

(** X15: a unit whose data was read and whose run duration is zero is
    reported exactly when its name is some, possibly empty, prefix followed by
    ".target"; any other name with a zero run duration adds nothing. *)
Theorem zero_duration_target_rule dbusConn userStartTs name t w :
  getUnitTimingData dbusConn name userStartTs = Val (Ok t) ->
  runtime t = 0 ->
  ((exists p, name = (p ++ ".target")%string) ->
   unitBody dbusConn userStartTs name w = (Val tt, pushMetric (unitMetric name t) w)) /\
  ((forall p, name <> (p ++ ".target")%string) ->
   unitBody dbusConn userStartTs name w = (Val tt, w)).
Proof.
  intros Ht Hz. rewrite (unitBody_ok _ _ _ _ w Ht), Hz. cbn [Z.eqb andb]. split.
  - intros [p ->]. rewrite HasSuffix_app. reflexivity.
  - intros Hno. destruct (HasSuffix name ".target") eqn:Hs; [|reflexivity].
    apply HasSuffix_inv in Hs as [p Hp]. exfalso. exact (Hno p Hp).
Qed.

Lemma zero_duration_target_rule_witness :
  unitBody connIdleUnits 500 "multi-user.target" World0 =
    (Val tt,
     pushMetric (unitMetric "multi-user.target"
                   {| activating := 0; activated := 0; deactivating := 0;
                      deactivated := 0; runtime := 0 |}) World0).
Proof.
  apply (proj1 (zero_duration_target_rule connIdleUnits 500 "multi-user.target"
                  {| activating := 0; activated := 0; deactivating := 0;
                     deactivated := 0; runtime := 0 |} World0 eq_refl eq_refl)).
  exists "multi-user". reflexivity.
Defined.

(** ** The unit patterns handed to the bus *)

Lemma Split_Join l sep :
  l <> [] ->
  Forall (fun p => contains sep p = false) l ->
  Split (Join l sep) sep = l.
Proof.
  intros Hne Hl. induction Hl as [|p rest Hp Hrest IH]; [contradiction|].
  destruct rest as [|q rest].
  - apply Split_no_sep, Hp.
  - change (Split (p ++ String sep (Join (q :: rest) sep)) sep = p :: q :: rest).
    rewrite (Split_app _ _ _ Hp), IH; [reflexivity|discriminate].
Qed.

(** X16: when [UnitPattern] is a comma-separated list of patterns that
    hold no comma, the unit collector asks the bus for exactly those patterns,
    with an empty list of states: what the bus answers to that request decides
    the enumeration.  An empty [UnitPattern] asks for the single empty
    pattern. *)
Theorem unit_patterns_split dbusConn s w patterns :
  patterns <> [] ->
  Forall (fun p => contains ","%char p = false) patterns ->
  UnitPattern s = Join patterns ","%char ->
  (forall e, ListUnitsByPatterns dbusConn [] patterns = Err e ->
     postAllUnitTimingData dbusConn s w = (Val (Some e), pushError e w)) /\
  (forall units userTs userStartTs,
     ListUnitsByPatterns dbusConn [] patterns = Ok units ->
     managerProps w !! "UserspaceTimestampMonotonic" = Some userTs ->
     ParseUint userTs 64 = Ok userStartTs ->
     postAllUnitTimingData dbusConn s w =
       (forEach (unitBody dbusConn userStartTs) units >> ret None) w) /\
  Split "" ","%char = [""].
Proof.
  intros Hne Hl Hs.
  assert (Hsplit : Split (UnitPattern s) ","%char = patterns)
    by (rewrite Hs; apply Split_Join; assumption).
  repeat split.
  - intros e He. unfold postAllUnitTimingData. rewrite Hsplit, He. reflexivity.
  - intros units userTs us Hu Hk Hp.
    apply (postAllUnitTimingData_loop _ _ _ _ _ _ ltac:(rewrite Hsplit; exact Hu) Hk Hp).
Qed.

Lemma unit_patterns_split_witness :
  postAllUnitTimingData connMounts cfgMounts World0 =
    (Val (Some (BusError "no mounts")), pushError (BusError "no mounts") World0).
Proof.
  apply (proj1 (unit_patterns_split connMounts cfgMounts World0
                  ["*.mount"; "*.service"]
                  ltac:(discriminate)
                  ltac:(repeat constructor)
                  eq_refl)).
  reflexivity.
Defined.

(** ** The values the bus renders *)

Lemma digitChar_code d : 0 <= d <= 9 -> Z.of_N (N_of_ascii (digitChar d)) = 48 + d.
Proof.
  intros Hd. unfold digitChar. rewrite N_ascii_embedding by lia. lia.
Qed.

(** One round of the digit loop on a digit that fits. *)
Lemma parseUintLoop_digit maxVal d s n :
  0 <= d <= 9 -> 0 <= n -> n < cutoff10 ->
  n * 10 + d <= maxVal -> maxVal <= maxUint64 ->
  parseUintLoop maxVal (String (digitChar d) s) n = parseUintLoop maxVal s (n * 10 + d).
Proof.
  intros Hd Hn Hc Hfit Hmax. cbn [parseUintLoop]. cbv zeta.
  rewrite (digitChar_code d Hd).
  assert (H1 : (48 <=? 48 + d) && (48 + d <=? 57) = true)
    by (apply andb_true_iff; split; apply Z.leb_le; lia).
  rewrite H1.
  assert (H2 : (cutoff10 <=? n) = false) by (apply Z.leb_gt; exact Hc).
  rewrite H2.
  replace (48 + d - 48) with d by lia.
  unfold maxUint64 in Hmax.
  assert (Hm : mul64 n 10 = n * 10).
  { unfold mul64. apply Z.mod_small. unfold cutoff10, maxUint64 in Hc.
    change (2 ^ 64) with 18446744073709551616.
    change ((2 ^ 64 - 1) / 10 + 1) with 1844674407370955162 in Hc. lia. }
  assert (Ha : add64 (n * 10) d = n * 10 + d).
  { unfold add64. apply Z.mod_small. lia. }
  rewrite Hm, Ha.
  assert (H3 : (n * 10 + d <? n * 10) || (maxVal <? n * 10 + d) = false)
    by (apply orb_false_iff; split; apply Z.ltb_ge; lia).
  rewrite H3. reflexivity.
Qed.

(** Parsing the printed digits of [n] from 0 is parsing the rest from [n]. *)
Lemma parse_formatUintFuel maxVal fuel : forall n tail,
  0 <= n -> n < 10 ^ Z.of_nat fuel -> n <= maxVal -> maxVal <= maxUint64 ->
  parseUintLoop maxVal (formatUintFuel fuel n tail) 0 = parseUintLoop maxVal tail n.
Proof.
  induction fuel as [|fuel IH]; intros n tail Hn Hlt Hfit Hmax.
  - cbn in Hlt. assert (n = 0) as -> by lia. reflexivity.
  - cbn [formatUintFuel]. cbv zeta.
    assert (Hcut : n / 10 < cutoff10).
    { unfold cutoff10. unfold maxUint64 in *.
      pose proof (Z.div_le_mono n (2 ^ 64 - 1) 10 ltac:(lia) ltac:(lia)). lia. }
    pose proof (Z.mod_pos_bound n 10 ltac:(lia)) as Hmod.
    pose proof (Z.div_mod n 10 ltac:(lia)) as Hdm.
    assert (Hc0 : 0 < cutoff10) by (vm_compute; reflexivity).
    destruct (n <? 10) eqn:Hsmall.
    + apply Z.ltb_lt in Hsmall. rewrite (Z.mod_small n 10) by lia.
      rewrite (parseUintLoop_digit maxVal n tail 0
                 ltac:(lia) ltac:(lia) Hc0 ltac:(lia) Hmax).
      f_equal.
    + apply Z.ltb_ge in Hsmall.
      assert (Hq : 0 <= n / 10) by (apply Z.div_pos; lia).
      assert (Hqlt : n / 10 < 10 ^ Z.of_nat fuel).
      { rewrite Nat2Z.inj_succ, Z.pow_succ_r in Hlt by lia.
        apply Z.div_lt_upper_bound; lia. }
      rewrite (IH (n / 10) _ Hq Hqlt ltac:(lia) Hmax).
      rewrite (parseUintLoop_digit maxVal (n mod 10) tail (n / 10)
                 ltac:(lia) Hq Hcut ltac:(lia) Hmax).
      f_equal. lia.
Qed.

Lemma formatUintFuel_cons fuel : forall n c tail,
  exists c' tail', formatUintFuel fuel n (String c tail) = String c' tail'.
Proof.
  induction fuel as [|fuel IH]; intros n c tail; [cbn; eauto|].
  cbn [formatUintFuel]. cbv zeta. destruct (n <? 10); [eauto|apply IH].
Qed.

Lemma formatUintFuel_nonempty fuel n tail : formatUintFuel (S fuel) n tail <> "".
Proof.
  cbn [formatUintFuel]. cbv zeta. destruct (n <? 10); [discriminate|].
  destruct (formatUintFuel_cons fuel (n / 10) (digitChar (n mod 10)) tail)
    as (c & t & ->). discriminate.
Qed.

Lemma FormatUint_nonempty n : FormatUint n <> "".
Proof. apply (formatUintFuel_nonempty 19). Qed.

(** Decoding what [FormatUint] prints gives the value back. *)
Lemma ParseUint_FormatUint v : is_uint64 v -> ParseUint (FormatUint v) 64 = Ok v.
Proof.
  intros [H0 Hmax]. unfold ParseUint, parseUint.
  destruct (String.eqb (FormatUint v) "") eqn:He;
    [apply String.eqb_eq in He; exfalso; exact (FormatUint_nonempty v He)|].
  unfold FormatUint. rewrite parse_formatUintFuel; try assumption.
  - reflexivity.
  - unfold maxUint64 in Hmax. change (10 ^ Z.of_nat 20) with 100000000000000000000.
    change (2 ^ 64 - 1) with 18446744073709551615 in Hmax. lia.
  - reflexivity.
Qed.

Lemma digitChar_not_zero d : 1 <= d <= 9 -> digitChar d <> "0"%char.
Proof.
  intros Hd Heq. pose proof (digitChar_code d ltac:(lia)) as Hc.
  rewrite Heq in Hc. cbn in Hc. lia.
Qed.

Lemma formatUintFuel_head fuel : forall n tail,
  1 <= n -> n < 10 ^ Z.of_nat fuel ->
  exists c rest, formatUintFuel fuel n tail = String c rest /\ c <> "0"%char.
Proof.
  induction fuel as [|fuel IH]; intros n tail Hn Hlt; [cbn in Hlt; lia|].
  cbn [formatUintFuel]. cbv zeta. destruct (n <? 10) eqn:Hsmall.
  - apply Z.ltb_lt in Hsmall. rewrite (Z.mod_small n 10) by lia.
    eexists _, _. split; [reflexivity|]. apply digitChar_not_zero. lia.
  - apply Z.ltb_ge in Hsmall. apply IH.
    + apply Z.div_le_lower_bound; lia.
    + rewrite Nat2Z.inj_succ, Z.pow_succ_r in Hlt by lia.
      apply Z.div_lt_upper_bound; lia.
Qed.

Lemma FormatUint_no_leading_zero v : is_uint64 v -> no_leading_zero (FormatUint v).
Proof.
  intros [H0 Hmax]. destruct (Z.eq_dec v 0) as [->|Hne]; [left; reflexivity|].
  right. unfold FormatUint.
  destruct (formatUintFuel_head 20 v "") as (c & rest & Heq & Hc); [lia| |eauto].
  unfold maxUint64 in Hmax. change (10 ^ Z.of_nat 20) with 100000000000000000000.
  change (2 ^ 64 - 1) with 18446744073709551615 in Hmax. lia.
Qed.

Lemma formatUintFuel_no_space fuel : forall n tail,
  0 <= n -> contains " "%char tail = false ->
  contains " "%char (formatUintFuel fuel n tail) = false.
Proof.
  induction fuel as [|fuel IH]; intros n tail Hn Ht; [exact Ht|].
  cbn [formatUintFuel]. cbv zeta.
  pose proof (Z.mod_pos_bound n 10 ltac:(lia)) as Hmod.
  assert (Hd : contains " "%char (String (digitChar (n mod 10)) tail) = false).
  { cbn [contains]. rewrite Ht, orb_false_r. apply Ascii.eqb_neq. intros Heq.
    pose proof (digitChar_code (n mod 10) ltac:(lia)) as Hc.
    rewrite Heq in Hc. cbn in Hc. lia. }
  destruct (n <? 10); [exact Hd|].
  apply IH; [apply Z.div_pos; lia|exact Hd].
Qed.

(** The decoder takes the digits out of what the bus renders. *)
Lemma stripType_renderUint64 v : 0 <= v -> stripType (renderUint64 v) = Val (FormatUint v).
Proof.
  intros Hv. unfold stripType, renderUint64.
  change ("@t " ++ FormatUint v)%string with ("@t" ++ String " " (FormatUint v))%string.
  rewrite (Split_app "@t" " "%char _ eq_refl).
  rewrite Split_no_sep; [reflexivity|].
  apply formatUintFuel_no_space; [exact Hv|reflexivity].
Qed.

(** Every unsigned 64-bit value the bus renders meets the conditions under
    which the manager collector emits exactly the non-zero values: the
    rendering has its type token, decodes to the value, and has no leading
    zero. *)
Lemma renderUint64_decodes v :
  is_uint64 v ->
  stripType (renderUint64 v) = Val (FormatUint v) /\
  no_leading_zero (FormatUint v) /\
  ParseUint (FormatUint v) 64 = Ok v.
Proof.
  intros Hv. split; [apply stripType_renderUint64, Hv|].
  split; [apply FormatUint_no_leading_zero, Hv|apply ParseUint_FormatUint, Hv].
Qed.

Example renderUint64_500 : renderUint64 500 = "@t 500".
Proof. reflexivity. Qed.

(** So, for a milestone whose property the bus renders from the unsigned
    64-bit value [v], the manager loop appends the record carrying [v] when
    [v] is non-zero and appends nothing when it is zero. *)
Lemma manager_round_rendered dbusConn pre name post w w1 v :
  is_uint64 v ->
  forEach (managerPropBody dbusConn) pre w = (Val tt, w1) ->
  GetManagerProperty dbusConn name = Ok (renderUint64 v) ->
  postAllManagerProps dbusConn (pre ++ name :: post) w =
    (forEach (managerPropBody dbusConn) post >> ret None)
      (if v =? 0 then storeProp name (FormatUint v) w1
       else pushMetric (managerMetric name v) (storeProp name (FormatUint v) w1)).
Proof.
  intros Hv Hpre Hr.
  destruct (renderUint64_decodes v Hv) as (Hs & Hc & Hp).
  destruct (manager_round_cases dbusConn pre name post w w1 (Ok (FormatUint v)) Hpre)
    as (w2 & Hrun & _ & _ & _ & Hcanon).
  { unfold getManagerProp. rewrite Hr, Hs. reflexivity. }
  rewrite Hrun, (Hcanon v Hc Hp). reflexivity.
Qed.
